(** * easybusy-mcp-server: the JSON-RPC relay of [server.mjs]

    [server.mjs] holds two revisions of the same server, one after the
    other (lines 1-229 and lines 231-488).  Both are embedded here, as
    [First] and [Second].  They share the data model below.

    - JavaScript values are the JSON values plus [undefined]; numbers are
      the integers (what the tool schemas declare).
    - Objects are association lists: [Object.entries] and [JSON.stringify]
      walk the members in insertion order, so the order is kept.
    - Turning a value into text can throw: [String(v)], a template literal
      and [URLSearchParams.set] fail on an object that has a member named
      toString, which JSON can only fill with something that is not a
      function.  [ToString] returns [None] there.
    - The built-ins the server calls but does not define ([JSON.parse],
      [JSON.stringify], the text of a number, the parser behind [new URL],
      the network behind [fetch]) and the process configuration are the
      fields of [Runtime], with the few facts about them that the proofs
      use; every theorem holds for every runtime.
    - Effects are a log of events ([fetch] calls and [socket.send] calls, in
      order) next to a result that is a value or a thrown error. *)

From Stdlib Require Import String Ascii List ZArith Bool Lia.
From Stdlib Require Import DecimalString.
Import ListNotations.
Local Open Scope string_scope.
Local Open Scope Z_scope.
Local Set Warnings "-register-all".

(** ** Values *)

Inductive value : Type :=
| VUndefined
| VNull
| VBool (b : bool)
| VNum (n : Z)
| VStr (s : string)
| VArr (items : list value)
| VObj (members : list (string * value)).

(** [v == null]: true of [null] and [undefined] only. *)
Definition nullish (v : value) : bool :=
  match v with
  | VUndefined | VNull => true
  | _ => false
  end.

(** The test of [if (v)], [v || d] and [v ? a : b]. *)
Definition ToBoolean (v : value) : bool :=
  match v with
  | VUndefined | VNull => false
  | VBool b => b
  | VNum n => negb (n =? 0)
  | VStr s => negb (String.eqb s EmptyString)
  | VArr _ | VObj _ => true
  end.

(** [v === undefined] and [v === null] *)
Definition is_undefined (v : value) : bool :=
  match v with
  | VUndefined => true
  | _ => false
  end.

Definition is_null (v : value) : bool :=
  match v with
  | VNull => true
  | _ => false
  end.

(** [a || d] *)
Definition or_else (a d : value) : value :=
  if ToBoolean a then a else d.

(** [a ?? d] *)
Definition coalesce (a d : value) : value :=
  if nullish a then d else a.

(** [name === 'literal'] *)
Definition strict_eq_str (v : value) (lit : string) : bool :=
  match v with
  | VStr s => String.eqb s lit
  | _ => false
  end.

(** An integer in decimal. *)
Definition string_of_Z (n : Z) : string :=
  NilZero.string_of_int (Z.to_int n).

(** First member named [k] of a member list. *)
Fixpoint lookup (k : string) (members : list (string * value)) : value :=
  match members with
  | [] => VUndefined
  | (k', v) :: rest => if String.eqb k k' then v else lookup k rest
  end.

(** Whether an object has a member of its own named [k]. *)
Fixpoint has_key (k : string) (members : list (string * value)) : bool :=
  match members with
  | [] => false
  | (k', _) :: rest => String.eqb k k' || has_key k rest
  end.

(** [v.k] for a [v] that is neither [null] nor [undefined], and for the
    member names this server reads (none of them is a property of a
    primitive wrapper or of [Array.prototype]). *)
Definition get (v : value) (k : string) : value :=
  match v with
  | VObj members => lookup k members
  | _ => VUndefined
  end.

(** A value that is not an array and not an object. *)
Definition scalar (v : value) : bool :=
  match v with
  | VArr _ | VObj _ => false
  | _ => true
  end.

(** ** Texts that a URL parser leaves alone *)

Definition is_digit (c : ascii) : bool :=
  let n := nat_of_ascii c in
  Nat.leb 48 n && Nat.leb n 57.

Definition is_letter (c : ascii) : bool :=
  let n := nat_of_ascii c in
  (Nat.leb 65 n && Nat.leb n 90) || (Nat.leb 97 n && Nat.leb n 122).

(** The characters of the text of a number: digits, a sign, and the
    point and exponent of a number too large for plain digits. *)
Definition number_char (c : ascii) : bool :=
  is_digit c || Ascii.eqb c "-" || Ascii.eqb c "+" || Ascii.eqb c "." ||
  Ascii.eqb c "e".

(** Characters a URL path keeps as they are. *)
Definition path_char (c : ascii) : bool :=
  is_digit c || is_letter c || Ascii.eqb c "-" || Ascii.eqb c "_" ||
  Ascii.eqb c "." || Ascii.eqb c "+" || Ascii.eqb c "/".

Fixpoint all_chars (f : ascii -> bool) (s : string) : bool :=
  match s with
  | EmptyString => true
  | String c rest => f c && all_chars f rest
  end.

(** The text of a number starts with a digit or a minus sign. *)
Definition number_text (s : string) : bool :=
  match s with
  | EmptyString => false
  | String c rest =>
      (is_digit c || Ascii.eqb c "-") && all_chars number_char rest
  end.

(** Whether the text after a slash starts with a segment that is one dot
    or two, the segments a URL parser resolves away. *)
Definition dot_segment_at (s : string) : bool :=
  match s with
  | String a EmptyString => Ascii.eqb a "."
  | String a (String b rest) =>
      Ascii.eqb a "." &&
      (Ascii.eqb b "/" ||
       (Ascii.eqb b "." &&
        match rest with
        | EmptyString => true
        | String c _ => Ascii.eqb c "/"
        end))
  | EmptyString => false
  end.

Fixpoint no_dot_segments (s : string) : bool :=
  match s with
  | EmptyString => true
  | String c rest =>
      (if Ascii.eqb c "/" then negb (dot_segment_at rest) else true) &&
      no_dot_segments rest
  end.

(** A path that [new URL] takes over unchanged: it starts with one
    slash, holds only characters a path keeps, and no dot segment, so it
    has no query, no fragment and nothing to resolve or to encode. *)
Definition plain_path (p : string) : bool :=
  match p with
  | String a (String b _) =>
      Ascii.eqb a "/" && negb (Ascii.eqb b "/") &&
      all_chars path_char p && no_dot_segments p
  | _ => false
  end.

(** ** Errors and effects *)

(** The errors a handler can see: [new Error(message)] thrown by the
    server's own code, and the [TypeError]s of the engine and of [fetch]. *)
Inductive exn : Type :=
| Error (message : string)
| TypeError (message : string).

(** [err.message] *)
Definition message_of (e : exn) : string :=
  match e with
  | Error m | TypeError m => m
  end.

(** A URL object as this server uses it: the absolute URL it was resolved
    against, which gives it its scheme and host, [url.pathname], and the
    entries of [url.searchParams], in order. *)
Record URL : Type := mkURL {
  base : string;
  pathname : string;
  searchParams : list (string * string)
}.

(** [url.searchParams.set(k, v)]: the first entry named [k] takes the
    value and the later ones go; without one, the entry is appended. *)
Fixpoint remove_key (k : string) (l : list (string * string)) :
  list (string * string) :=
  match l with
  | [] => []
  | (k', v') :: rest =>
      if String.eqb k k' then remove_key k rest
      else (k', v') :: remove_key k rest
  end.

Fixpoint set_entry (k v : string) (l : list (string * string)) :
  list (string * string) :=
  match l with
  | [] => [(k, v)]
  | (k', v') :: rest =>
      if String.eqb k k' then (k, v) :: remove_key k rest
      else (k', v') :: set_entry k v rest
  end.

Definition searchParams_set (u : URL) (k v : string) : URL :=
  mkURL (base u) (pathname u) (set_entry k v (searchParams u)).

(** The argument of [fetch]. *)
Record Request : Type := mkRequest {
  req_url : URL;
  req_method : string;
  req_headers : list (string * string);
  req_body : option string
}.

(** What the server reads of a [fetch] response: [res.status] and the text
    of the body. *)
Record Response : Type := mkResponse {
  status : Z;
  text : string
}.

(** [res.ok] *)
Definition ok (r : Response) : bool :=
  (200 <=? status r) && (status r <=? 299).

Inductive event : Type :=
| EvFetch (r : Request)
| EvSend (data : string).

(** A computation: the events it caused, in order, and how it ended. *)
Definition M (A : Type) : Type := (list event * (exn + A))%type.

Definition ret {A : Type} (a : A) : M A := ([], inr a).

Definition throw {A : Type} (e : exn) : M A := ([], inl e).

Definition bind {A B : Type} (m : M A) (f : A -> M B) : M B :=
  match m with
  | (evs, inl e) => (evs, inl e)
  | (evs, inr a) => let (evs', r) := f a in ((evs ++ evs')%list, r)
  end.

(** [try { m } catch (err) { h err }] *)
Definition try_catch {A : Type} (m : M A) (h : exn -> M A) : M A :=
  match m with
  | (evs, inl e) => let (evs', r) := h e in ((evs ++ evs')%list, r)
  | (evs, inr a) => (evs, inr a)
  end.

Notation "x <- m ;; k" := (bind m (fun x => k))
  (at level 61, m at next level, right associativity).
Notation "m ;;; k" := (bind m (fun _ => k))
  (at level 61, right associativity).

Definition events {A : Type} (m : M A) : list event := fst m.
Definition outcome {A : Type} (m : M A) : exn + A := snd m.

(** The upstream calls and the replies in a log. *)
Definition fetches (evs : list event) : list Request :=
  flat_map (fun e => match e with EvFetch r => [r] | EvSend _ => [] end) evs.

Definition replies (evs : list event) : list string :=
  flat_map (fun e => match e with EvSend d => [d] | EvFetch _ => [] end) evs.

(** ** The runtime *)

Class Runtime : Type := {
  (** [process.env.EASYBUSY_BASE_URL || 'https://api-b2b.easybusy.software'],
      an absolute URL [new URL] accepts as a base; a server configured
      with anything else answers every call with Invalid URL *)
  EASYBUSY_BASE_URL : string;
  (** [process.env.EASYBUSY_API_KEY], not empty once the server runs *)
  EASYBUSY_API_KEY : string;
  (** [JSON.parse]; [None] when it throws a [SyntaxError], as it does on
      the empty text *)
  JSON_parse : string -> option value;
  JSON_parse_empty : JSON_parse EmptyString = None;
  (** [JSON.stringify] *)
  JSON_stringify : value -> string;
  (** the text of a number: plain digits up to 10^21, digits with an
      exponent from there on *)
  Number_toString : Z -> string;
  Number_toString_shape : forall n, number_text (Number_toString n) = true;
  (** [new URL(reference, base)]; [None] when it throws.  It resolves
      the reference: dot segments go, a question mark starts the query, a
      hash the fragment.  A plain path is what it has nothing to do to. *)
  URL_new : string -> string -> option URL;
  URL_new_plain :
    forall p, plain_path p = true ->
              URL_new p EASYBUSY_BASE_URL = Some (mkURL EASYBUSY_BASE_URL p []);
  (** the upstream behind [fetch]: a rejection, or a response whose body
      was read *)
  upstream : Request -> exn + Response
}.

(** [String(v)], which is also what a template literal and
    [URLSearchParams.set] apply to their argument; [None] when it throws
    a [TypeError].  An object converts through [Object.prototype.toString]
    unless a member of its own named toString hides it: that member is
    not a function, and neither it nor [valueOf] yields a primitive.  An
    array is the join of its elements. *)
Fixpoint ToString `{Runtime} (v : value) : option string :=
  match v with
  | VUndefined => Some "undefined"
  | VNull => Some "null"
  | VBool true => Some "true"
  | VBool false => Some "false"
  | VNum n => Some (Number_toString n)
  | VStr s => Some s
  | VArr items =>
      (fix join (l : list value) : option string :=
         match l with
         | [] => Some EmptyString
         | [x] => if nullish x then Some EmptyString else ToString x
         | x :: rest =>
             match (if nullish x then Some EmptyString else ToString x),
                   join rest with
             | Some first, Some others => Some (first ++ "," ++ others)
             | _, _ => None
             end
         end) items
  | VObj members =>
      if has_key "toString" members then None else Some "[object Object]"
  end.

(** A conversion to text inside the code. *)
Definition to_text `{Runtime} (v : value) : M string :=
  match ToString v with
  | Some s => ret s
  | None => throw (TypeError "Cannot convert object to primitive value")
  end.

(** [new URL(path, EASYBUSY_BASE_URL)] *)
Definition new_URL `{Runtime} (path : string) : M URL :=
  match URL_new path EASYBUSY_BASE_URL with
  | Some u => ret u
  | None => throw (TypeError "Invalid URL")
  end.

(** [await fetch(...)] followed by [await res.text()] *)
Definition fetch `{Runtime} (r : Request) : M Response :=
  ([EvFetch r], upstream r).

(** [socket.send(data)] *)
Definition send (data : string) : M unit := ([EvSend data], inr tt).

(** ** What a request carries *)

(** The options object of [easybusyFetch]; [None] is a member left out. *)
Record FetchOptions : Type := mkOptions {
  method : option string;
  query : option (list (string * value));
  body : option value
}.

Definition no_options : FetchOptions := mkOptions None None None.

Definition headers `{Runtime} : list (string * string) :=
  [("Content-Type", "application/json"); ("X-API-KEY", EASYBUSY_API_KEY)].

(** [v.k] as an expression: reading a property of [null] or [undefined]
    throws. *)
Definition prop (v : value) (k : string) : M value :=
  if nullish v then
    throw (TypeError ("Cannot read properties of " ++
                      (if is_null v then "null" else "undefined") ++
                      " (reading '" ++ k ++ "')"))
  else ret (get v k).

(** [const { k } = v] where the source text of [v] is [source]: binding a
    member of [null] or [undefined] throws. *)
Definition destructure (v : value) (source k : string) : M value :=
  if nullish v then
    throw (TypeError ("Cannot destructure property '" ++ k ++ "' of '" ++
                      source ++ "' as it is " ++
                      (if is_null v then "null" else "undefined") ++ "."))
  else ret (get v k).

(** An HTTP request as the listener reads it, and the response it writes:
    [res.writeHead(status, headers)] then [res.end(body)]. *)
Record IncomingMessage : Type := mkIncoming {
  url : string;
  http_method : string
}.

Record ServerResponse : Type := mkServerResponse {
  statusCode : Z;
  response_headers : list (string * string);
  response_body : option string
}.

(** ** The tool registry (lines 54-108, and again lines 292-346) *)

Definition schema (properties : list (string * value))
  (required : option (list string)) : value :=
  VObj ([("type", VStr "object"); ("properties", VObj properties)] ++
        match required with
        | Some names => [("required", VArr (map VStr names))]
        | None => []
        end).

Definition typed (name type : string) : string * value :=
  (name, VObj [("type", VStr type)]).

Definition tool (name description : string) (inputSchema : value) : value :=
  VObj [("name", VStr name); ("description", VStr description);
        ("inputSchema", inputSchema)].

Definition tools : value :=
  VArr [
    tool "easybusy_company_features" "GET /v2/company/features"
      (schema [] None);
    tool "easybusy_company_languages" "GET /v2/company/languages"
      (schema [] None);
    tool "easybusy_bookable_services"
      "GET /v2/simple-booking/bookable-services"
      (schema [typed "languageCode" "string"] (Some ["languageCode"]));
    tool "easybusy_bookable_doctors" "GET /v2/simple-booking/bookable-doctors"
      (schema [] None);
    tool "easybusy_available_slots" "GET /v2/simple-booking/available-slots"
      (schema [typed "languageCode" "string"; typed "from" "string";
               typed "to" "string"; typed "serviceId" "integer";
               typed "doctorId" "integer"]
         (Some ["languageCode"; "from"; "to"; "serviceId"; "doctorId"]));
    tool "easybusy_request_slot"
      "POST /v2/simple-booking/request-slot/{slotId}"
      (schema [typed "slotId" "integer"; typed "serviceId" "integer";
               typed "message" "string"; typed "patientInfo" "object"]
         (Some ["slotId"; "serviceId"; "patientInfo"]))
  ].

(** The names the registry advertises, and what a descriptor requires. *)
Definition items_of (v : value) : list value :=
  match v with
  | VArr items => items
  | _ => []
  end.

Definition texts_of (v : value) : list string :=
  match v with
  | VStr s => [s]
  | _ => []
  end.

Definition registered_names : list string :=
  flat_map (fun t => texts_of (get t "name")) (items_of tools).

Definition required_of (name : string) : list string :=
  flat_map
    (fun t =>
       if strict_eq_str (get t "name") name then
         flat_map texts_of (items_of (get (get t "inputSchema") "required"))
       else [])
    (items_of tools).

(** The JSON-RPC envelopes the handler sends. *)
Definition result_envelope (id result : value) : value :=
  VObj [("jsonrpc", VStr "2.0"); ("id", id); ("result", result)].

Definition error_envelope (id : value) (code : Z) (message : value) : value :=
  VObj [("jsonrpc", VStr "2.0"); ("id", id);
        ("error", VObj [("code", VNum code); ("message", message)])].

(** ** The first revision (lines 1-229) *)

Module First.
Section WithRuntime.
Context `{Runtime}.

(** Lines 25-27: the loop over [Object.entries(query)]. *)
Fixpoint set_query (entries : list (string * value)) (u : URL) : M URL :=
  match entries with
  | [] => ret u
  | (k, v) :: rest =>
      if negb (nullish v) then
        t <- to_text v ;;
        set_query rest (searchParams_set u k t)
      else set_query rest u
  end.

(** Lines 21-49.  [res.status] is a whole number below 65536, which a
    template literal writes in decimal. *)
Definition easybusyFetch (path : string) (opts : FetchOptions) : M value :=
  let method := match method opts with Some m => m | None => "GET" end in
  url <- new_URL path ;;
  url <- match query opts with
         | Some entries => set_query entries url
         | None => ret url
         end ;;
  res <- fetch
           (mkRequest url method headers
              (match body opts with
               | Some b => if ToBoolean b then Some (JSON_stringify b) else None
               | None => None
               end)) ;;
  let txt := text res in
  let json :=
    if negb (String.eqb txt EmptyString) then
      match JSON_parse txt with
      | Some parsed => parsed
      | None => VStr txt
      end
    else VNull in
  if negb (ok res) then
    throw (Error ("EasyBusy " ++ method ++ " " ++ pathname url
                  ++ " failed (" ++ string_of_Z (status res) ++ "): "
                  ++ txt))
  else ret json.

(** Lines 113-153. *)
Definition handleToolCall (name args : value) : M value :=
  if strict_eq_str name "easybusy_company_features" then
    easybusyFetch "/v2/company/features" no_options
  else if strict_eq_str name "easybusy_company_languages" then
    easybusyFetch "/v2/company/languages" no_options
  else if strict_eq_str name "easybusy_bookable_services" then
    languageCode <- prop args "languageCode" ;;
    easybusyFetch "/v2/simple-booking/bookable-services"
      (mkOptions None (Some [("languageCode", languageCode)]) None)
  else if strict_eq_str name "easybusy_bookable_doctors" then
    easybusyFetch "/v2/simple-booking/bookable-doctors" no_options
  else if strict_eq_str name "easybusy_available_slots" then
    languageCode <- prop args "languageCode" ;;
    from <- prop args "from" ;;
    to <- prop args "to" ;;
    serviceId <- prop args "serviceId" ;;
    doctorId <- prop args "doctorId" ;;
    easybusyFetch "/v2/simple-booking/available-slots"
      (mkOptions None
         (Some [("languageCode", languageCode); ("from", from); ("to", to);
                ("serviceId", serviceId); ("doctorId", doctorId)])
         None)
  else if strict_eq_str name "easybusy_request_slot" then
    slotId <- prop args "slotId" ;;
    slot <- to_text slotId ;;
    serviceId <- prop args "serviceId" ;;
    message <- prop args "message" ;;
    patientInfo <- prop args "patientInfo" ;;
    easybusyFetch ("/v2/simple-booking/request-slot/" ++ slot)
      (mkOptions (Some "POST") None
         (Some (VObj [("serviceId", serviceId);
                      ("message", coalesce message (VStr EmptyString));
                      ("patientInfo", patientInfo)])))
  else
    shown <- to_text name ;;
    throw (Error ("Unknown tool: " ++ shown)).

(** Lines 158-172; [uptime] is what [process.uptime()] returns. *)
Definition on_request (req : IncomingMessage) (uptime : value) :
  ServerResponse :=
  if String.eqb (url req) "/health" then
    mkServerResponse 200 [("Content-Type", "application/json")]
      (Some (JSON_stringify
               (VObj [("status", VStr "ok"); ("uptime", uptime)])))
  else if String.eqb (url req) "/mcp" then
    mkServerResponse 200 [("Content-Type", "application/json")]
      (Some (JSON_stringify
               (VObj [("status", VStr "ready"); ("mcp", VBool true)])))
  else mkServerResponse 404 [] None.

(** Lines 180-224; [raw] is [raw.toString()]. *)
Definition on_message (raw : string) : M unit :=
  match JSON_parse raw with
  | None =>
      send (JSON_stringify
              (error_envelope VNull (-32700) (VStr "Invalid JSON")))
  | Some msg =>
      id <- destructure msg "msg" "id" ;;
      method <- destructure msg "msg" "method" ;;
      params <- destructure msg "msg" "params" ;;
      try_catch
        (if strict_eq_str method "tools/list" then
           send (JSON_stringify
                   (result_envelope id
                      (VObj [("tools", tools); ("nextCursor", VNull)])))
         else if strict_eq_str method "tools/call" then
           let p := or_else params (VObj []) in
           name <- destructure p "params || {}" "name" ;;
           args <- destructure p "params || {}" "arguments" ;;
           result <- handleToolCall name (or_else args (VObj [])) ;;
           send (JSON_stringify (result_envelope id result))
         else
           send (JSON_stringify
                   (error_envelope id (-32601) (VStr "Unknown method"))))
        (fun err =>
           send (JSON_stringify
                   (error_envelope id (-32000) (VStr (message_of err)))))
  end.

End WithRuntime.
End First.

(** ** The second revision (lines 231-488) *)

Module Second.
Section WithRuntime.
Context `{Runtime}.

(** Lines 255-259: [Object.entries(query).forEach]. *)
Fixpoint set_query (entries : list (string * value)) (u : URL) : M URL :=
  match entries with
  | [] => ret u
  | (k, v) :: rest =>
      if negb (is_undefined v) && negb (is_null v) then
        t <- to_text v ;;
        set_query rest (searchParams_set u k t)
      else set_query rest u
  end.

(** Lines 251-287.  [res.status] is a whole number below 65536, which a
    template literal writes in decimal. *)
Definition easybusyFetch (path : string) (opts : FetchOptions) : M value :=
  let method := match method opts with Some m => m | None => "GET" end in
  url <- new_URL path ;;
  url <- match query opts with
         | Some entries => set_query entries url
         | None => ret url
         end ;;
  res <- fetch
           (mkRequest url method headers
              (match body opts with
               | Some b => if ToBoolean b then Some (JSON_stringify b) else None
               | None => None
               end)) ;;
  let txt := text res in
  let json :=
    if negb (String.eqb txt EmptyString) then
      match JSON_parse txt with
      | Some parsed => parsed
      | None => VStr txt
      end
    else VNull in
  if negb (ok res) then
    throw (Error ("EasyBusy " ++ method ++ " " ++ pathname url
                  ++ " failed (" ++ string_of_Z (status res) ++ "): "
                  ++ txt))
  else ret json.

(** Lines 351-394; [return await f()] and [return f()] settle alike. *)
Definition handleToolCall (name args : value) : M value :=
  if strict_eq_str name "easybusy_company_features" then
    easybusyFetch "/v2/company/features" no_options
  else if strict_eq_str name "easybusy_company_languages" then
    easybusyFetch "/v2/company/languages" no_options
  else if strict_eq_str name "easybusy_bookable_services" then
    languageCode <- prop args "languageCode" ;;
    easybusyFetch "/v2/simple-booking/bookable-services"
      (mkOptions None (Some [("languageCode", languageCode)]) None)
  else if strict_eq_str name "easybusy_bookable_doctors" then
    easybusyFetch "/v2/simple-booking/bookable-doctors" no_options
  else if strict_eq_str name "easybusy_available_slots" then
    languageCode <- prop args "languageCode" ;;
    from <- prop args "from" ;;
    to <- prop args "to" ;;
    serviceId <- prop args "serviceId" ;;
    doctorId <- prop args "doctorId" ;;
    easybusyFetch "/v2/simple-booking/available-slots"
      (mkOptions None
         (Some [("languageCode", languageCode); ("from", from); ("to", to);
                ("serviceId", serviceId); ("doctorId", doctorId)])
         None)
  else if strict_eq_str name "easybusy_request_slot" then
    slotId <- prop args "slotId" ;;
    slot <- to_text slotId ;;
    serviceId <- prop args "serviceId" ;;
    message <- prop args "message" ;;
    patientInfo <- prop args "patientInfo" ;;
    easybusyFetch ("/v2/simple-booking/request-slot/" ++ slot)
      (mkOptions (Some "POST") None
         (Some (VObj [("serviceId", serviceId);
                      ("message", coalesce message (VStr EmptyString));
                      ("patientInfo", patientInfo)])))
  else
    shown <- to_text name ;;
    throw (Error ("Unknown tool: " ++ shown)).

(** Lines 399-416; [uptime] is what [process.uptime()] returns. *)
Definition on_request (req : IncomingMessage) (uptime : value) :
  ServerResponse :=
  if String.eqb (url req) "/health" then
    mkServerResponse 200 [("Content-Type", "application/json")]
      (Some (JSON_stringify
               (VObj [("status", VStr "ok"); ("uptime", uptime)])))
  else if String.eqb (url req) "/mcp" && String.eqb (http_method req) "GET"
  then
    mkServerResponse 200 [("Content-Type", "application/json")]
      (Some (JSON_stringify
               (VObj [("status", VStr "ready"); ("mcp", VBool true)])))
  else mkServerResponse 404 [] None.

(** Lines 422-483; [raw] is [message.toString()]. *)
Definition on_message (raw : string) : M unit :=
  match JSON_parse raw with
  | None =>
      send (JSON_stringify
              (error_envelope VNull (-32700) (VStr "Invalid JSON")))
  | Some msg =>
      id <- destructure msg "data" "id" ;;
      method <- destructure msg "data" "method" ;;
      params <- destructure msg "data" "params" ;;
      try_catch
        (if strict_eq_str method "tools/list" then
           send (JSON_stringify
                   (result_envelope id
                      (VObj [("tools", tools); ("nextCursor", VNull)])))
         else if strict_eq_str method "tools/call" then
           let p := or_else params (VObj []) in
           name <- destructure p "params || {}" "name" ;;
           args <- destructure p "params || {}" "arguments" ;;
           result <- handleToolCall name (or_else args (VObj [])) ;;
           send (JSON_stringify (result_envelope id result))
         else
           send (JSON_stringify
                   (error_envelope id (-32601) (VStr "Unknown method"))))
        (fun err =>
           send (JSON_stringify
                   (error_envelope id (-32000)
                      (or_else (VStr (message_of err))
                         (VStr "Internal MCP error")))))
  end.

End WithRuntime.
End Second.

(** ** Start-up (lines 8-16, and again lines 238-246) *)

(** [process.env]: a variable is a string or is not set. *)
Definition environment : Type := string -> option string.

(** [process.env.NAME] *)
Definition env_value (env : environment) (name : string) : value :=
  match env name with
  | Some s => VStr s
  | None => VUndefined
  end.

Record Config : Type := mkConfig {
  PORT : value;
  BASE_URL : value;
  API_KEY : value
}.

(** How the module body ends: [process.exit(code)] after a line on the
    error stream, or the constants the server runs with. *)
Inductive startup : Type :=
| Exit (code : Z) (stderr : string)
| Started (c : Config).

Definition load_config (env : environment) : startup :=
  let port := or_else (env_value env "PORT") (VNum 10000) in
  let base_url :=
    or_else (env_value env "EASYBUSY_BASE_URL")
      (VStr "https://api-b2b.easybusy.software") in
  let api_key := env_value env "EASYBUSY_API_KEY" in
  if negb (ToBoolean api_key) then
    Exit 1 "❌ Missing EASYBUSY_API_KEY env var"
  else Started (mkConfig port base_url api_key).

(** ** The interface as the specification documents it

    These definitions follow the words of the specification (its sections
    4.1, 4.2 and 6), not the code; the theorems compare the two. *)

(** Reading a tools/call message: its name and arguments as sent. *)
Definition tool_name (msg : value) : value := get (get msg "params") "name".

Definition tool_arguments (msg : value) : value :=
  get (get msg "params") "arguments".

(** The query parameters a tool takes from its arguments. *)
Definition query_keys (name : string) : list string :=
  if String.eqb name "easybusy_bookable_services" then ["languageCode"]
  else if String.eqb name "easybusy_available_slots" then
    ["languageCode"; "from"; "to"; "serviceId"; "doctorId"]
  else [].

(** "Each non-null value is stringified and set on the URL; null/absent
    values are omitted."  There is no such list when a value has no
    text. *)
Fixpoint present_texts `{Runtime} (entries : list (string * value)) :
  option (list (string * string)) :=
  match entries with
  | [] => Some []
  | (k, v) :: rest =>
      if nullish v then present_texts rest
      else
        match ToString v, present_texts rest with
        | Some t, Some others => Some ((k, t) :: others)
        | _, _ => None
        end
  end.

Definition documented_query `{Runtime} (keys : list string) (args : value) :
  option (list (string * string)) :=
  present_texts (map (fun k => (k, get args k)) keys).

(** "message optional, defaults to empty string" *)
Definition documented_message (args : value) : value :=
  match get args "message" with
  | VUndefined | VNull => VStr EmptyString
  | m => m
  end.

(** The one upstream call of each tool: the table of section 4.2 and the
    upstream contract of section 6, the path being the documented one
    with the text of slotId in the place of {slotId}. *)
Definition documented_call `{Runtime} (name : string) (args : value) :
  option Request :=
  let GET path :=
    match documented_query (query_keys name) args with
    | Some q =>
        Some (mkRequest (mkURL EASYBUSY_BASE_URL path q) "GET" headers None)
    | None => None
    end in
  if String.eqb name "easybusy_company_features" then
    GET "/v2/company/features"
  else if String.eqb name "easybusy_company_languages" then
    GET "/v2/company/languages"
  else if String.eqb name "easybusy_bookable_services" then
    GET "/v2/simple-booking/bookable-services"
  else if String.eqb name "easybusy_bookable_doctors" then
    GET "/v2/simple-booking/bookable-doctors"
  else if String.eqb name "easybusy_available_slots" then
    GET "/v2/simple-booking/available-slots"
  else if String.eqb name "easybusy_request_slot" then
    match ToString (get args "slotId") with
    | Some slot =>
        Some (mkRequest
                (mkURL EASYBUSY_BASE_URL
                   ("/v2/simple-booking/request-slot/" ++ slot) [])
                "POST" headers
                (Some (JSON_stringify
                         (VObj [("serviceId", get args "serviceId");
                                ("message", documented_message args);
                                ("patientInfo", get args "patientInfo")]))))
    | None => None
    end
  else None.

(** The required arguments of a tool are present: each has a value that is
    neither absent nor [null]. *)
Definition required_present (name : string) (args : value) : Prop :=
  forall k, In k (required_of name) -> nullish (get args k) = false.

(** The arguments that go into the URL are plain: no query argument is an
    array or an object, and a slotId that is given is a number. *)
Definition plain_arguments (name : string) (args : value) : Prop :=
  (forall k, In k (query_keys name) -> scalar (get args k) = true) /\
  (name = "easybusy_request_slot" ->
   nullish (get args "slotId") = true \/
   exists n, get args "slotId" = VNum n).

(** A JSON-RPC request: a JSON object. *)
Definition is_request (msg : value) : Prop :=
  exists members, msg = VObj members.

(** ** The client without its effects *)

(** Lines 24-28 as a function of the URL. *)
Fixpoint query_url `{Runtime} (entries : list (string * value)) (u : URL) :
  exn + URL :=
  match entries with
  | [] => inr u
  | (k, v) :: rest =>
      if nullish v then query_url rest u
      else
        match ToString v with
        | Some t => query_url rest (searchParams_set u k t)
        | None => inl (TypeError "Cannot convert object to primitive value")
        end
  end.

(** The request the client hands to [fetch] (lines 22-37), or the error
    that stops it before. *)
Definition request_of `{Runtime} (path : string) (opts : FetchOptions) :
  exn + Request :=
  match URL_new path EASYBUSY_BASE_URL with
  | None => inl (TypeError "Invalid URL")
  | Some u =>
      match
        match query opts with
        | Some entries => query_url entries u
        | None => inr u
        end
      with
      | inl e => inl e
      | inr u' =>
          inr (mkRequest u'
                 (match method opts with Some m => m | None => "GET" end)
                 headers
                 (match body opts with
                  | Some b =>
                      if ToBoolean b then Some (JSON_stringify b) else None
                  | None => None
                  end))
      end
  end.

(** How an upstream call settles once [fetch] has returned (lines 39-48):
    what the client returns or throws, as a function of the request. *)
Definition settle `{Runtime} (r : Request) : exn + value :=
  match upstream r with
  | inl e => inl e
  | inr res =>
      if ok res then
        inr (if String.eqb (text res) EmptyString then VNull
             else match JSON_parse (text res) with
                  | Some parsed => parsed
                  | None => VStr (text res)
                  end)
      else
        inl (Error ("EasyBusy " ++ req_method r ++ " " ++
                    pathname (req_url r) ++ " failed (" ++
                    string_of_Z (status res) ++ "): " ++ text res))
  end.

(** The reply to a tools/call, as a function of how the dispatcher ended:
    lines 207 and 218-222, and lines 454-460 and 472-481. *)
Definition reply_of (id : value) (out : exn + value) : value :=
  match out with
  | inr result => result_envelope id result
  | inl err => error_envelope id (-32000) (VStr (message_of err))
  end.

Definition reply_of_second (id : value) (out : exn + value) : value :=
  match out with
  | inr result => result_envelope id result
  | inl err =>
      error_envelope id (-32000)
        (or_else (VStr (message_of err)) (VStr "Internal MCP error"))
  end.

(** ** A reference runtime

    A concrete runtime to run the server on: [JSON.parse] and
    [JSON.stringify] for the JSON texts whose numbers are integers and whose
    strings have no [\u] escapes, numbers written in decimal, a URL parser
    for references that start with a slash (it resolves dot segments and
    splits off the query and the fragment, and encodes nothing), and an
    upstream given as a function. *)

Module Reference.

Definition dquote : ascii := ascii_of_nat 34.
Definition backslash : ascii := ascii_of_nat 92.

Definition is_ws (c : ascii) : bool :=
  let n := nat_of_ascii c in
  Nat.eqb n 32 || Nat.eqb n 9 || Nat.eqb n 10 || Nat.eqb n 13.

Definition digit_of (c : ascii) : Z := Z.of_nat (nat_of_ascii c) - 48.

Fixpoint skip_ws (s : string) : string :=
  match s with
  | String c rest => if is_ws c then skip_ws rest else s
  | EmptyString => s
  end.

(** [s] without the prefix [p], when it starts with it. *)
Fixpoint strip (p s : string) : option string :=
  match p, s with
  | EmptyString, _ => Some s
  | String a p', String b s' => if Ascii.eqb a b then strip p' s' else None
  | String _ _, EmptyString => None
  end.

Fixpoint digits (acc : Z) (s : string) : Z * string :=
  match s with
  | String c rest =>
      if is_digit c then digits (10 * acc + digit_of c) rest else (acc, s)
  | EmptyString => (acc, s)
  end.

(** An integer without sign: [0], or digits that do not start with [0]. *)
Definition natural (s : string) : option (Z * string) :=
  match s with
  | String c rest =>
      if Ascii.eqb c "0" then Some (0, rest)
      else if is_digit c then Some (digits 0 s)
      else None
  | EmptyString => None
  end.

(** The characters of a string literal after its opening quote. *)
Fixpoint string_body (s : string) : option (string * string) :=
  match s with
  | EmptyString => None
  | String c rest =>
      if Ascii.eqb c dquote then Some (EmptyString, rest)
      else if Ascii.eqb c backslash then
        match rest with
        | String e rest' =>
            let escaped :=
              if Ascii.eqb e dquote then Some dquote
              else if Ascii.eqb e backslash then Some backslash
              else if Ascii.eqb e "/" then Some "/"%char
              else if Ascii.eqb e "b" then Some (ascii_of_nat 8)
              else if Ascii.eqb e "f" then Some (ascii_of_nat 12)
              else if Ascii.eqb e "n" then Some (ascii_of_nat 10)
              else if Ascii.eqb e "r" then Some (ascii_of_nat 13)
              else if Ascii.eqb e "t" then Some (ascii_of_nat 9)
              else None in
            match escaped, string_body rest' with
            | Some a, Some (str, after) => Some (String a str, after)
            | _, _ => None
            end
        | EmptyString => None
        end
      else if Nat.ltb (nat_of_ascii c) 32 then None
      else
        match string_body rest with
        | Some (str, after) => Some (String c str, after)
        | None => None
        end
  end.

(** A member parsed twice keeps its place and takes the later value. *)
Fixpoint set_member (k : string) (v : value) (l : list (string * value)) :
  list (string * value) :=
  match l with
  | [] => [(k, v)]
  | (k', v') :: rest =>
      if String.eqb k k' then (k, v) :: rest
      else (k', v') :: set_member k v rest
  end.

Fixpoint parse_value (fuel : nat) (s : string) {struct fuel} :
  option (value * string) :=
  match fuel with
  | O => None
  | S fuel' =>
      match skip_ws s with
      | EmptyString => None
      | String c rest =>
          if Ascii.eqb c "n" then
            option_map (fun r => (VNull, r)) (strip "ull" rest)
          else if Ascii.eqb c "t" then
            option_map (fun r => (VBool true, r)) (strip "rue" rest)
          else if Ascii.eqb c "f" then
            option_map (fun r => (VBool false, r)) (strip "alse" rest)
          else if Ascii.eqb c dquote then
            option_map (fun p => (VStr (fst p), snd p)) (string_body rest)
          else if Ascii.eqb c "-" then
            option_map (fun p => (VNum (- fst p), snd p)) (natural rest)
          else if is_digit c then
            option_map (fun p => (VNum (fst p), snd p))
              (natural (String c rest))
          else if Ascii.eqb c "[" then
            match skip_ws rest with
            | String d rest' =>
                if Ascii.eqb d "]" then Some (VArr [], rest')
                else parse_elements fuel' [] rest
            | EmptyString => None
            end
          else if Ascii.eqb c "{" then
            match skip_ws rest with
            | String d rest' =>
                if Ascii.eqb d "}" then Some (VObj [], rest')
                else parse_members fuel' [] rest
            | EmptyString => None
            end
          else None
      end
  end
with parse_elements (fuel : nat) (acc : list value) (s : string)
  {struct fuel} : option (value * string) :=
  match fuel with
  | O => None
  | S fuel' =>
      match parse_value fuel' s with
      | Some (v, after) =>
          match skip_ws after with
          | String d rest =>
              if Ascii.eqb d "," then parse_elements fuel' (acc ++ [v]) rest
              else if Ascii.eqb d "]" then Some (VArr (acc ++ [v]), rest)
              else None
          | EmptyString => None
          end
      | None => None
      end
  end
with parse_members (fuel : nat) (acc : list (string * value)) (s : string)
  {struct fuel} : option (value * string) :=
  match fuel with
  | O => None
  | S fuel' =>
      match skip_ws s with
      | String q rest =>
          if Ascii.eqb q dquote then
            match string_body rest with
            | Some (k, after_key) =>
                match skip_ws after_key with
                | String colon after_colon =>
                    if Ascii.eqb colon ":" then
                      match parse_value fuel' after_colon with
                      | Some (v, after) =>
                          match skip_ws after with
                          | String d rest' =>
                              if Ascii.eqb d "," then
                                parse_members fuel' (set_member k v acc) rest'
                              else if Ascii.eqb d "}" then
                                Some (VObj (set_member k v acc), rest')
                              else None
                          | EmptyString => None
                          end
                      | None => None
                      end
                    else None
                | EmptyString => None
                end
            | None => None
            end
          else None
      | EmptyString => None
      end
  end.

Definition parse (s : string) : option value :=
  match parse_value (2 * String.length s + 2) s with
  | Some (v, after) =>
      match skip_ws after with
      | EmptyString => Some v
      | String _ _ => None
      end
  | None => None
  end.

(** The text of a number.  The test never fails: decimal digits with a
    sign are the text of a number. *)
Definition decimal (n : Z) : string :=
  if number_text (string_of_Z n) then string_of_Z n else "0".

Definition decimal_shape (n : Z) : number_text (decimal n) = true.
Proof.
  unfold decimal. destruct (number_text (string_of_Z n)) eqn:E;
    [exact E | reflexivity].
Qed.

Definition hex_digit (n : nat) : ascii :=
  if Nat.ltb n 10 then ascii_of_nat (48 + n) else ascii_of_nat (87 + n).

Fixpoint escape (s : string) : string :=
  match s with
  | EmptyString => EmptyString
  | String c rest =>
      let n := nat_of_ascii c in
      (if Ascii.eqb c dquote then String backslash (String dquote EmptyString)
       else if Ascii.eqb c backslash then
         String backslash (String backslash EmptyString)
       else if Nat.eqb n 8 then "\b"
       else if Nat.eqb n 12 then "\f"
       else if Nat.eqb n 10 then "\n"
       else if Nat.eqb n 13 then "\r"
       else if Nat.eqb n 9 then "\t"
       else if Nat.ltb n 32 then
         "\u00" ++ String (hex_digit (Nat.div n 16))
                     (String (hex_digit (Nat.modulo n 16)) EmptyString)
       else String c EmptyString) ++ escape rest
  end.

Definition quote (s : string) : string :=
  String dquote (escape s) ++ String dquote EmptyString.

(** [JSON.stringify]; [None] is the [undefined] it returns for
    [undefined].  A member whose value is [undefined] is left out, an
    [undefined] element is written [null]. *)
Fixpoint stringify (v : value) : option string :=
  match v with
  | VUndefined => None
  | VNull => Some "null"
  | VBool true => Some "true"
  | VBool false => Some "false"
  | VNum n => Some (decimal n)
  | VStr s => Some (quote s)
  | VArr items =>
      Some ("[" ++
            String.concat ","
              ((fix elements (l : list value) : list string :=
                  match l with
                  | [] => []
                  | x :: rest =>
                      match stringify x with
                      | Some str => str
                      | None => "null"
                      end :: elements rest
                  end) items) ++ "]")
  | VObj members =>
      Some ("{" ++
            String.concat ","
              ((fix pairs (l : list (string * value)) : list string :=
                  match l with
                  | [] => []
                  | (k, x) :: rest =>
                      match stringify x with
                      | Some str => (quote k ++ ":" ++ str) :: pairs rest
                      | None => pairs rest
                      end
                  end) members) ++ "}")
  end.

(** The text before the first [stop], and the text after it. *)
Fixpoint cut (stop : ascii) (s : string) : string * option string :=
  match s with
  | EmptyString => (EmptyString, None)
  | String c rest =>
      if Ascii.eqb c stop then (EmptyString, Some rest)
      else let (before, after) := cut stop rest in (String c before, after)
  end.

Fixpoint split_on (sep : ascii) (s : string) : list string :=
  match s with
  | EmptyString => [EmptyString]
  | String c rest =>
      if Ascii.eqb c sep then EmptyString :: split_on sep rest
      else
        match split_on sep rest with
        | seg :: segs => String c seg :: segs
        | [] => [String c EmptyString]
        end
  end.

(** Dot segments resolved: one dot stays in place, two go one up; either
    one at the end leaves a trailing slash. *)
Fixpoint resolve_segments (segs stack : list string) : list string :=
  match segs with
  | [] => rev stack
  | seg :: rest =>
      if String.eqb seg ".." then
        match rest with
        | [] => rev (EmptyString :: tl stack)
        | _ => resolve_segments rest (tl stack)
        end
      else if String.eqb seg "." then
        match rest with
        | [] => rev (EmptyString :: stack)
        | _ => resolve_segments rest stack
        end
      else resolve_segments rest (seg :: stack)
  end.

Definition resolve_path (p : string) : string :=
  match split_on "/" p with
  | _ :: segs => "/" ++ String.concat "/" (resolve_segments segs [])
  | [] => "/"
  end.

Definition query_entries (q : string) : list (string * string) :=
  flat_map
    (fun piece =>
       if String.eqb piece EmptyString then []
       else
         let (k, v) := cut "=" piece in
         [(k, match v with Some t => t | None => EmptyString end)])
    (split_on "&" q).

(** [new URL(reference, b)] for a [b] that is a valid base and a
    reference that starts with one slash.  A plain path is taken as it is,
    which is also what the resolution below makes of it. *)
Definition resolve (reference b : string) : option URL :=
  if plain_path reference then Some (mkURL b reference [])
  else
    match reference with
    | String a (String c _) =>
        if Ascii.eqb a "/" && negb (Ascii.eqb c "/") then
          let (located, _) := cut "#" reference in
          let (p, q) := cut "?" located in
          Some (mkURL b (resolve_path p)
                  (match q with
                   | Some t => query_entries t
                   | None => []
                   end))
        else None
    | _ => None
    end.

Definition resolve_plain (b p : string) :
  plain_path p = true -> resolve p b = Some (mkURL b p []).
Proof. intros P. unfold resolve. now rewrite P. Qed.

(** A runtime over the upstream [up]. *)
Definition runtime (up : Request -> exn + Response) : Runtime := {|
  EASYBUSY_BASE_URL := "https://api-b2b.easybusy.software";
  EASYBUSY_API_KEY := "secret";
  JSON_parse := parse;
  JSON_parse_empty := eq_refl;
  JSON_stringify :=
    fun v => match stringify v with Some str => str | None => "undefined" end;
  Number_toString := decimal;
  Number_toString_shape := decimal_shape;
  URL_new := resolve;
  URL_new_plain := resolve_plain "https://api-b2b.easybusy.software";
  upstream := up
|}.

(** The value of a text that parses. *)
Definition parsed (s : string) : value :=
  match parse s with
  | Some v => v
  | None => VUndefined
  end.

(** JSON texts are written with apostrophes in place of double quotes. *)
Fixpoint js (s : string) : string :=
  match s with
  | EmptyString => EmptyString
  | String c rest =>
      String (if Ascii.eqb c "'" then dquote else c) (js rest)
  end.

(** An upstream that answers every request alike. *)
Definition answers (status : Z) (text : string) : Request -> exn + Response :=
  fun _ => inr (mkResponse status text).

(** An upstream that cannot be reached. *)
Definition unreachable : Request -> exn + Response :=
  fun _ => inl (TypeError "fetch failed").

End Reference.

(** ** Messages and upstreams to run the server on *)

Module Samples.
Import Reference.

(** The example of the specification: booking slot 42. *)
Definition book_slot_42 : string :=
  js ("{'jsonrpc':'2.0','id':1,'method':'tools/call','params':" ++
      "{'name':'easybusy_request_slot','arguments':" ++
      "{'slotId':42,'serviceId':7,'patientInfo':{'name':'A'}}}}").

(** A call that leaves out every required argument but one. *)
Definition slots_without_dates : string :=
  js ("{'jsonrpc':'2.0','id':2,'method':'tools/call','params':" ++
      "{'name':'easybusy_available_slots','arguments':{'languageCode':'en'}}}").

Definition list_features : string :=
  js ("{'jsonrpc':'2.0','id':3,'method':'tools/call','params':" ++
      "{'name':'easybusy_company_features'}}").

Definition call_unknown_tool : string :=
  js ("{'jsonrpc':'2.0','id':4,'method':'tools/call','params':" ++
      "{'name':'easybusy_cancel_slot','arguments':{}}}").


Definition truncated : string := js "{'jsonrpc':'2.0','id':6,".

(** Upstreams: a booking accepted, a server error, an empty success. *)
Definition booked : Runtime := runtime (answers 201 (js "{'bookingId':1}")).

Definition failing : Runtime := runtime (answers 500 "server error").

Definition silent : Runtime := runtime (answers 200 EmptyString).

(** A success whose body is not JSON. *)
Definition plain : Runtime := runtime (answers 200 "OK").

(** No upstream at all: [fetch] rejects. *)
Definition offline : Runtime := runtime unreachable.

(** [fetch] rejects with an error that has no message. *)
Definition mute : Runtime := runtime (fun _ => inl (Error EmptyString)).

Definition list_tools : string :=
  js "{'jsonrpc':'2.0','id':8,'method':'tools/list'}".

Definition call_without_params : string :=
  js "{'jsonrpc':'2.0','id':9,'method':'tools/call'}".

(** Arguments that are a text, not a mapping. *)
Definition call_with_text_arguments : string :=
  js ("{'jsonrpc':'2.0','id':10,'method':'tools/call','params':" ++
      "{'name':'easybusy_bookable_services','arguments':'en'}}").

(** A JSON document that is not an object. *)
Definition scalar_message : string := "42".

(** An environment with the key and nothing else. *)
Definition key_only : environment :=
  fun name =>
    if String.eqb name "EASYBUSY_API_KEY" then Some "secret" else None.

(** Booking with a slotId that is an object with a member toString. *)
Definition book_slot_object : string :=
  js ("{'jsonrpc':'2.0','id':11,'method':'tools/call','params':" ++
      "{'name':'easybusy_request_slot','arguments':" ++
      "{'slotId':{'toString':1},'serviceId':7,'patientInfo':{'name':'A'}}}}").

(** Booking with a slotId that is a text with dot segments. *)
Definition book_slot_elsewhere : string :=
  js ("{'jsonrpc':'2.0','id':12,'method':'tools/call','params':" ++
      "{'name':'easybusy_request_slot','arguments':" ++
      "{'slotId':'../../company/features','serviceId':7," ++
      "'patientInfo':{'name':'A'}}}}").

(** A call whose name is an object with a member toString. *)
Definition call_object_name : string :=
  js ("{'jsonrpc':'2.0','id':13,'method':'tools/call','params':" ++
      "{'name':{'toString':1},'arguments':{}}}").

(** An upstream that refuses with a JSON body. *)
Definition refusing : Runtime :=
  runtime (answers 409 (js "{'error':'slot taken'}")).

End Samples.

(** * Properties *)

(** ** The examples of the specification, run *)

Example ToString_samples :
  ToString (H := Samples.silent) (VNum 42) = Some "42" /\
  ToString (H := Samples.silent) (VNum (-7)) = Some "-7" /\
  ToString (H := Samples.silent) (VArr [VNum 1; VNull; VStr "a"]) =
    Some "1,,a" /\
  ToString (H := Samples.silent) (VArr []) = Some EmptyString /\
  ToString (H := Samples.silent) VUndefined = Some "undefined" /\
  ToString (H := Samples.silent) (VObj [("a", VNum 1)]) =
    Some "[object Object]" /\
  ToString (H := Samples.silent) (VObj [("toString", VNum 1)]) = None /\
  ToString (H := Samples.silent) (VArr [VObj [("toString", VNull)]]) = None.
Proof. repeat split; reflexivity. Qed.

Example parse_samples :
  Reference.parse (Reference.js " {'a': [1, -2, true, null], 'a': 'x'} ") =
    Some (VObj [("a", VStr "x")]) /\
  Reference.parse "null" = Some VNull /\
  Reference.parse EmptyString = None /\
  Reference.parse "{" = None /\
  Reference.parse "server error" = None.
Proof. repeat split; reflexivity. Qed.

Example resolve_samples :
  Reference.resolve "/v2/simple-booking/request-slot/../../company/features"
    "b" = Some (mkURL "b" "/v2/company/features" []) /\
  Reference.resolve "/v2/simple-booking/request-slot/4?x=1#top" "b" =
    Some (mkURL "b" "/v2/simple-booking/request-slot/4" [("x", "1")]) /\
  plain_path "/v2/simple-booking/request-slot/1.5e+21" = true /\
  plain_path "/v2/simple-booking/request-slot/.." = false.
Proof. repeat split; reflexivity. Qed.

(** Booking slot 42: a POST with the message defaulted, and the body of the
    201 answer as the result. *)
Example booking_example :
  First.on_message (H := Samples.booked) Samples.book_slot_42 =
    ([EvFetch
        (mkRequest
           (mkURL "https://api-b2b.easybusy.software"
              "/v2/simple-booking/request-slot/42" [])
           "POST"
           [("Content-Type", "application/json"); ("X-API-KEY", "secret")]
           (Some (Reference.js
                    "{'serviceId':7,'message':'','patientInfo':{'name':'A'}}")));
      EvSend (Reference.js "{'jsonrpc':'2.0','id':1,'result':{'bookingId':1}}")],
     inr tt).
Proof. vm_compute. reflexivity. Qed.

(** An upstream that answers 500: the error envelope names the status and
    the path. *)
Example server_error_example :
  replies (events (Second.on_message (H := Samples.failing)
                     Samples.slots_without_dates)) =
    [Reference.js
       ("{'jsonrpc':'2.0','id':2,'error':{'code':-32000,'message':" ++
        "'EasyBusy GET /v2/simple-booking/available-slots failed (500): " ++
        "server error'}}")].
Proof. vm_compute. reflexivity. Qed.

(** ** The monad and the value operations *)

Lemma bind_ret {A B : Type} (a : A) (f : A -> M B) : bind (ret a) f = f a.
Proof. unfold bind, ret. destruct (f a) as [evs r]. reflexivity. Qed.

Lemma bind_throw {A B : Type} (e : exn) (f : A -> M B) :
  bind (throw e) f = throw e.
Proof. reflexivity. Qed.

Lemma bind_ext {A B : Type} (m : M A) (f g : A -> M B) :
  (forall a, f a = g a) -> bind m f = bind m g.
Proof.
  intros E. destruct m as [evs [e|a]]; simpl; [reflexivity|].
  now rewrite E.
Qed.

Lemma prop_defined (v : value) (k : string) :
  nullish v = false -> prop v k = ret (get v k).
Proof. unfold prop. intros ->. reflexivity. Qed.

Lemma prop_nullish (v : value) (k : string) :
  nullish v = true ->
  exists m, prop v k = throw (TypeError m) /\ m <> EmptyString.
Proof.
  unfold prop. intros ->. eexists. split; [reflexivity|]. discriminate.
Qed.

Lemma destructure_defined (v : value) (source k : string) :
  nullish v = false -> destructure v source k = ret (get v k).
Proof. unfold destructure. intros ->. reflexivity. Qed.

Lemma truthy_not_nullish (v : value) : ToBoolean v = true -> nullish v = false.
Proof. destruct v; simpl; congruence. Qed.

Lemma or_else_truthy (a : value) : ToBoolean (or_else a (VObj [])) = true.
Proof.
  unfold or_else. destruct (ToBoolean a) eqn:E; [exact E | reflexivity].
Qed.

Lemma or_else_not_nullish (a : value) : nullish (or_else a (VObj [])) = false.
Proof. apply truthy_not_nullish, or_else_truthy. Qed.

Lemma or_else_truthy_default (a d : value) :
  ToBoolean d = true -> ToBoolean (or_else a d) = true.
Proof.
  intros T. unfold or_else. destruct (ToBoolean a) eqn:E; assumption.
Qed.

Lemma or_else_message (m : string) (d : value) :
  m <> EmptyString -> or_else (VStr m) d = VStr m.
Proof.
  intros N. unfold or_else. simpl.
  apply String.eqb_neq in N. now rewrite N.
Qed.

(** Reading a member of [a || {}] is reading it of [a]. *)
Lemma get_or_else (a : value) (k : string) :
  get (or_else a (VObj [])) k = get a k.
Proof. destruct a as [| |b|n|s|l|l]; try reflexivity.
  - destruct b; reflexivity.
  - unfold or_else; simpl. destruct (n =? 0); reflexivity.
  - unfold or_else; simpl. destruct (String.eqb s EmptyString); reflexivity.
Qed.

Lemma strict_eq_str_true (v : value) (lit : string) :
  strict_eq_str v lit = true <-> v = VStr lit.
Proof.
  destruct v; simpl; split; try discriminate.
  - intros E. apply String.eqb_eq in E. now subst.
  - intros E. injection E as ->. apply String.eqb_refl.
Qed.

Lemma strict_eq_str_false (v : value) (lit : string) :
  v <> VStr lit -> strict_eq_str v lit = false.
Proof.
  intros N. destruct (strict_eq_str v lit) eqn:E; [|reflexivity].
  apply strict_eq_str_true in E. contradiction.
Qed.

(** ** Texts and plain paths *)

Lemma number_char_path (c : ascii) :
  number_char c = true -> path_char c = true.
Proof.
  destruct c as [[] [] [] [] [] [] [] []]; intros E;
    try reflexivity; discriminate E.
Qed.

Lemma number_char_not_slash (c : ascii) :
  number_char c = true -> Ascii.eqb c "/" = false.
Proof.
  destruct c as [[] [] [] [] [] [] [] []]; intros E;
    try reflexivity; discriminate E.
Qed.

Lemma number_start (c : ascii) :
  is_digit c || Ascii.eqb c "-" = true ->
  number_char c = true /\ Ascii.eqb c "." = false.
Proof.
  destruct c as [[] [] [] [] [] [] [] []]; intros E;
    try (split; reflexivity); discriminate E.
Qed.

Lemma number_chars_path (s : string) :
  all_chars number_char s = true -> all_chars path_char s = true.
Proof.
  induction s as [|c rest IH]; [reflexivity|]. simpl.
  intros E. apply andb_prop in E as [C R].
  now rewrite (number_char_path _ C), IH.
Qed.

Lemma number_chars_no_dots (s : string) :
  all_chars number_char s = true -> no_dot_segments s = true.
Proof.
  induction s as [|c rest IH]; [reflexivity|]. simpl.
  intros E. apply andb_prop in E as [C R].
  now rewrite (number_char_not_slash _ C), IH.
Qed.

(** The text of a number after the request-slot prefix is a plain path. *)
Lemma plain_slot (t : string) :
  number_text t = true ->
  plain_path ("/v2/simple-booking/request-slot/" ++ t) = true.
Proof.
  destruct t as [|c rest]; [discriminate|]. simpl.
  intros E. apply andb_prop in E as [C R].
  destruct (number_start _ C) as [N D].
  rewrite (number_char_path _ N), (number_chars_path _ R).
  rewrite (number_char_not_slash _ N), (number_chars_no_dots _ R).
  rewrite D.
  destruct rest as [|d rest']; reflexivity.
Qed.

Section Conversions.
Context `{Runtime}.

Lemma to_text_some (v : value) (t : string) :
  ToString v = Some t -> to_text v = ret t.
Proof. unfold to_text. now intros ->. Qed.

Lemma to_text_none (v : value) :
  ToString v = None ->
  to_text v = throw (TypeError "Cannot convert object to primitive value").
Proof. unfold to_text. now intros ->. Qed.

Lemma scalar_text (v : value) :
  scalar v = true -> exists t, ToString v = Some t.
Proof.
  destruct v as [| |[]|n|s|l|l]; simpl; try discriminate; eauto.
Qed.

Lemma number_slot_plain (n : Z) :
  plain_path ("/v2/simple-booking/request-slot/" ++ Number_toString n) = true.
Proof. apply plain_slot, Number_toString_shape. Qed.

End Conversions.

(** ** The two revisions of the client and of the dispatcher agree *)

Section Revisions.
Context `{Runtime}.

Lemma query_filter_same (v : value) :
  negb (is_undefined v) && negb (is_null v) = negb (nullish v).
Proof. destruct v; reflexivity. Qed.

Lemma set_query_same (entries : list (string * value)) (u : URL) :
  Second.set_query entries u = First.set_query entries u.
Proof.
  revert u. induction entries as [|[k v] rest IH]; intros u; [reflexivity|].
  simpl. rewrite query_filter_same.
  destruct (nullish v); simpl; [apply IH|].
  apply bind_ext. intros t. apply IH.
Qed.

Lemma easybusyFetch_same (path : string) (opts : FetchOptions) :
  Second.easybusyFetch path opts = First.easybusyFetch path opts.
Proof.
  unfold Second.easybusyFetch, First.easybusyFetch.
  apply bind_ext. intros u.
  destruct (query opts) as [entries|]; [|reflexivity].
  now rewrite set_query_same.
Qed.

Lemma handleToolCall_same (name args : value) :
  Second.handleToolCall name args = First.handleToolCall name args.
Proof.
  unfold Second.handleToolCall, First.handleToolCall.
  repeat match goal with
    | |- (if strict_eq_str name ?lit then _ else _) = _ =>
        destruct (strict_eq_str name lit);
        [repeat first [apply easybusyFetch_same | apply bind_ext; intros ?] |]
    end.
  reflexivity.
Qed.

End Revisions.

(** ** The upstream client *)

Section Client.
Context `{Runtime}.

Lemma set_query_run (entries : list (string * value)) (u : URL) :
  First.set_query entries u = ([], query_url entries u).
Proof.
  revert u. induction entries as [|[k v] rest IH]; intros u; [reflexivity|].
  simpl. destruct (nullish v); simpl; [apply IH|].
  unfold to_text. destruct (ToString v) as [t|]; [|reflexivity].
  rewrite bind_ret. apply IH.
Qed.

(** One call of the client is at most one [fetch]: none when the request
    cannot be built, else one, and then it ends as [settle] says. *)
Lemma easybusyFetch_run (path : string) (opts : FetchOptions) :
  First.easybusyFetch path opts =
  match request_of path opts with
  | inr r => ([EvFetch r], settle r)
  | inl e => throw e
  end.
Proof.
  unfold First.easybusyFetch, request_of, new_URL.
  destruct (URL_new path EASYBUSY_BASE_URL) as [u|]; [|reflexivity].
  rewrite bind_ret.
  assert (Q : match query opts with
              | Some entries => First.set_query entries u
              | None => ret u
              end =
              ([], match query opts with
                   | Some entries => query_url entries u
                   | None => inr u
                   end)).
  { destruct (query opts); [apply set_query_run | reflexivity]. }
  rewrite Q. clear Q.
  destruct (match query opts with
            | Some entries => query_url entries u
            | None => inr u
            end) as [e|u']; [reflexivity|].
  unfold settle, fetch, bind. simpl.
  destruct (upstream _) as [e|res]; [reflexivity|].
  destruct (ok res); simpl; [|reflexivity].
  destruct (String.eqb (text res) EmptyString); reflexivity.
Qed.

Lemma query_url_error (entries : list (string * value)) (u : URL) (e : exn) :
  query_url entries u = inl e ->
  e = TypeError "Cannot convert object to primitive value".
Proof.
  revert u. induction entries as [|[k v] rest IH]; intros u; simpl;
    [discriminate|].
  destruct (nullish v); [apply IH|].
  destruct (ToString v); [apply IH | congruence].
Qed.

Lemma request_of_error (path : string) (opts : FetchOptions) (e : exn) :
  request_of path opts = inl e -> message_of e <> EmptyString.
Proof.
  unfold request_of.
  destruct (URL_new path EASYBUSY_BASE_URL) as [u|];
    [|intros E; injection E as <-; discriminate].
  destruct (query opts) as [entries|]; [|discriminate].
  destruct (query_url entries u) as [e'|u'] eqn:Q; [|discriminate].
  intros E. injection E as <-.
  rewrite (query_url_error _ _ _ Q). discriminate.
Qed.

Lemma request_of_inr (path : string) (opts : FetchOptions) (r : Request) :
  request_of path opts = inr r ->
  req_headers r = headers /\
  req_method r = match method opts with Some m => m | None => "GET" end.
Proof.
  unfold request_of.
  destruct (URL_new path EASYBUSY_BASE_URL) as [u|]; [|discriminate].
  destruct (match query opts with
            | Some entries => query_url entries u
            | None => inr u
            end) as [e|u']; [discriminate|].
  intros E. injection E as <-. split; reflexivity.
Qed.

Lemma present_texts_keys (entries : list (string * value))
  (q : list (string * string)) (k : string) :
  present_texts entries = Some q ->
  In k (map fst q) -> In k (map fst entries).
Proof.
  revert q. induction entries as [|[k' v'] rest IH]; intros q; simpl.
  - intros E. injection E as <-. intros [].
  - destruct (nullish v'); [intros E I; right; eapply IH; eauto|].
    destruct (ToString v') as [t|]; [|discriminate].
    destruct (present_texts rest) as [others|]; [|discriminate].
    intros E. injection E as <-. simpl.
    intros [<-|I]; [now left | right; eapply IH; eauto].
Qed.

Lemma set_entry_fresh (k v : string) (l : list (string * string)) :
  ~ In k (map fst l) -> set_entry k v l = (l ++ [(k, v)])%list.
Proof.
  induction l as [|[k' v'] rest IH]; intros F; [reflexivity|].
  simpl in *. destruct (String.eqb_spec k k') as [->|_].
  - destruct F. now left.
  - rewrite IH; [reflexivity|]. intros I. apply F. now right.
Qed.

(** The loop over a query object, whose keys are distinct, appends the
    entries that have a value, or stops at the first that has no text. *)
Lemma query_url_present (entries : list (string * value)) (u : URL) :
  NoDup (map fst entries) ->
  (forall k, In k (map fst entries) -> ~ In k (map fst (searchParams u))) ->
  query_url entries u =
  match present_texts entries with
  | Some q => inr (mkURL (base u) (pathname u) (searchParams u ++ q))
  | None => inl (TypeError "Cannot convert object to primitive value")
  end.
Proof.
  revert u. induction entries as [|[k v] rest IH]; intros u D F.
  - simpl. rewrite app_nil_r. now destruct u.
  - simpl in D. inversion D as [|? ? NI D']; subst. simpl.
    destruct (nullish v).
    + apply IH; [exact D'|]. intros k' I. apply F. now right.
    + destruct (ToString v) as [t|]; [|reflexivity].
      rewrite IH; [|exact D'|].
      * unfold searchParams_set. simpl.
        rewrite set_entry_fresh by (apply F; now left).
        destruct (present_texts rest) as [others|]; [|reflexivity].
        now rewrite <- app_assoc.
      * intros k' I. unfold searchParams_set. simpl.
        rewrite set_entry_fresh by (apply F; now left).
        rewrite map_app, in_app_iff. simpl.
        intros [J|[->|[]]]; [|contradiction].
        apply (F k'); [now right | exact J].
Qed.

(** The request for a plain path and a query object. *)
Lemma request_of_plain (path : string) (m : option string)
  (q : option (list (string * value))) (b : option value) :
  plain_path path = true ->
  match q with Some entries => NoDup (map fst entries) | None => True end ->
  request_of path (mkOptions m q b) =
  match
    match q with Some entries => present_texts entries | None => Some [] end
  with
  | Some texts =>
      inr (mkRequest (mkURL EASYBUSY_BASE_URL path texts)
             (match m with Some given => given | None => "GET" end)
             headers
             (match b with
              | Some v => if ToBoolean v then Some (JSON_stringify v) else None
              | None => None
              end))
  | None => inl (TypeError "Cannot convert object to primitive value")
  end.
Proof.
  intros P D. unfold request_of. rewrite (URL_new_plain _ P). simpl.
  destruct q as [entries|]; [|reflexivity].
  rewrite query_url_present; [|exact D|intros k _ []]. simpl.
  destruct (present_texts entries); reflexivity.
Qed.

End Client.

(** ** The dispatcher *)

Section Dispatcher.
Context `{Runtime}.

Lemma documented_message_coalesce (args : value) :
  documented_message args = coalesce (get args "message") (VStr EmptyString).
Proof.
  unfold documented_message, coalesce.
  destruct (get args "message"); reflexivity.
Qed.

Lemma documented_registered (name : string) (args : value) (r : Request) :
  documented_call name args = Some r -> In name registered_names.
Proof.
  intros E. unfold documented_call in E. simpl.
  repeat match type of E with
    | (if String.eqb name ?lit then _ else _) = _ =>
        destruct (String.eqb_spec name lit); [subst; tauto|]
    end.
  discriminate.
Qed.

Lemma documented_call_query (name : string) (args : value) (r : Request) :
  documented_call name args = Some r ->
  documented_query (query_keys name) args = Some (searchParams (req_url r)).
Proof.
  intros D. unfold documented_call in D.
  repeat match type of D with
    | (if String.eqb name ?lit then _ else _) = _ =>
        destruct (String.eqb_spec name lit) as [->|_]
    end; try discriminate.
  all: try (destruct (documented_query _ args) as [q|]; [|discriminate];
            injection D as <-; reflexivity).
  destruct (ToString (get args "slotId")); [|discriminate].
  injection D as <-. reflexivity.
Qed.

Ltac distinct_keys :=
  simpl;
  repeat (apply NoDup_cons; [simpl; intuition discriminate|]);
  apply NoDup_nil.

(** With arguments that are not [null], the dispatcher makes the
    documented call, and nothing else, whenever that call has a plain
    path. *)
Lemma handleToolCall_documented (name : string) (args : value) (r : Request) :
  nullish args = false ->
  documented_call name args = Some r ->
  plain_path (pathname (req_url r)) = true ->
  First.handleToolCall (VStr name) args = ([EvFetch r], settle r).
Proof.
  intros T D P. pose proof (documented_call_query _ _ _ D) as Q.
  unfold documented_call in D. unfold First.handleToolCall.
  simpl strict_eq_str.
  repeat match type of D with
    | (if String.eqb name ?lit then _ else _) = _ =>
        destruct (String.eqb_spec name lit) as [->|_]
    end; try discriminate.
  1-5: destruct (documented_query _ args) as [q|] eqn:E; [|discriminate];
       injection D as <-;
       repeat first [rewrite (prop_defined _ _ T) | rewrite bind_ret];
       rewrite easybusyFetch_run;
       unfold no_options;
       (rewrite request_of_plain; [|reflexivity|try exact I; distinct_keys]);
       first
         [match goal with
          | |- context [present_texts ?l] =>
              let E' := fresh "E" in
              assert (E' : present_texts l = Some q) by exact E;
              rewrite E'
          end
         |assert (E' : Some (@nil (string * string)) = Some q) by exact E;
          injection E' as <-];
       reflexivity.
  destruct (ToString (get args "slotId")) as [slot|] eqn:S; [|discriminate].
  injection D as <-. simpl in P.
  repeat first [rewrite (prop_defined _ _ T) | rewrite bind_ret
               | rewrite (to_text_some _ _ S)].
  rewrite easybusyFetch_run, request_of_plain; [|exact P|exact I].
  now rewrite documented_message_coalesce.
Qed.

Lemma present_texts_scalar (entries : list (string * value)) :
  (forall k v, In (k, v) entries -> scalar v = true) ->
  exists q, present_texts entries = Some q.
Proof.
  induction entries as [|[k v] rest IH]; intros S; [eexists; reflexivity|].
  simpl. destruct IH as [q E].
  { intros k' v' I. apply (S k' v'). now right. }
  rewrite E. destruct (nullish v); [eauto|].
  destruct (scalar_text v (S k v (or_introl eq_refl))) as [t ->]. eauto.
Qed.

Lemma documented_query_scalar (keys : list string) (args : value) :
  (forall k, In k keys -> scalar (get args k) = true) ->
  exists q, documented_query keys args = Some q.
Proof.
  intros S. apply present_texts_scalar. intros k v I.
  apply in_map_iff in I as (k' & E & I). injection E as <- <-. now apply S.
Qed.

Lemma documented_query_present (keys : list string) (args : value)
  (q : list (string * string)) :
  documented_query keys args = Some q ->
  (forall k, In k keys -> nullish (get args k) = false) ->
  map fst q = keys.
Proof.
  unfold documented_query. revert q.
  induction keys as [|k ks IH]; intros q E A; simpl in E.
  - now injection E as <-.
  - rewrite (A k (or_introl eq_refl)) in E.
    destruct (ToString (get args k)); [|discriminate].
    destruct (present_texts _) as [others|]; [|discriminate].
    injection E as <-. simpl. f_equal.
    apply IH; [reflexivity|]. intros k' I. apply A. now right.
Qed.

Lemma documented_query_absent (keys : list string) (args : value)
  (q : list (string * string)) (k : string) :
  documented_query keys args = Some q ->
  nullish (get args k) = true ->
  ~ In k (map fst q).
Proof.
  unfold documented_query. revert q.
  induction keys as [|k' ks IH]; intros q E A; simpl in E.
  - injection E as <-. intros [].
  - destruct (nullish (get args k')) eqn:N; [now apply IH|].
    destruct (ToString (get args k')); [|discriminate].
    destruct (present_texts _) as [others|]; [|discriminate].
    injection E as <-. simpl.
    intros [<-|I]; [congruence | revert I; now apply IH].
Qed.

(** Plain arguments give every registered tool its documented call, and
    that call has a plain path. *)
Lemma plain_documented (name : string) (args : value) :
  In name registered_names ->
  plain_arguments name args ->
  exists r,
    documented_call name args = Some r /\
    plain_path (pathname (req_url r)) = true.
Proof.
  intros I [Q S].
  destruct (documented_query_scalar _ _ Q) as [q E].
  unfold documented_call. rewrite E. simpl in I.
  repeat (destruct I as [<-|I]; [simpl; eexists; split; reflexivity|]).
  destruct I as [<-|[]]. simpl.
  destruct (S eq_refl) as [N|[n N]].
  - destruct (get args "slotId"); try discriminate;
      simpl; eexists; split; reflexivity.
  - rewrite N. simpl. eexists. split; [reflexivity|].
    simpl. apply number_slot_plain.
Qed.

(** A name outside the registry takes the last branch of the switch. *)
Lemma unregistered_dispatch (name args : value) :
  (forall n, In n registered_names -> name <> VStr n) ->
  First.handleToolCall name args =
  (shown <- to_text name ;; throw (Error ("Unknown tool: " ++ shown))).
Proof.
  intros U. unfold First.handleToolCall.
  repeat match goal with
    | |- (if strict_eq_str name ?lit then _ else _) = _ =>
        rewrite (strict_eq_str_false name lit)
          by (apply U; simpl; tauto)
    end.
  reflexivity.
Qed.

(** Every run of the dispatcher: it throws before any upstream call, and
    the error has a message; or it makes the one call of a registered tool
    and ends as that call ends. *)
Lemma handleToolCall_cases (name args : value) :
  (exists e,
     First.handleToolCall name args = throw e /\
     message_of e <> EmptyString) \/
  (exists n path opts r,
     name = VStr n /\ In n registered_names /\
     (method opts = None \/ method opts = Some "POST") /\
     request_of path opts = inr r /\
     First.handleToolCall name args = ([EvFetch r], settle r)).
Proof.
  unfold First.handleToolCall.
  repeat match goal with
    | |- context [if strict_eq_str name ?lit then _ else _] =>
        let E := fresh "E" in
        destruct (strict_eq_str name lit) eqn:E;
        [apply strict_eq_str_true in E; subst name|clear E]
    end.
  all: repeat match goal with
         | |- context [prop ?a ?k] =>
             let N := fresh "N" in
             destruct (nullish a) eqn:N;
             [destruct (prop_nullish a k N) as (m & -> & NE);
              left; eexists; split; [reflexivity | exact NE]
             |repeat first [rewrite (prop_defined _ _ N) | rewrite bind_ret]]
         end.
  all: try match goal with
         | |- context [to_text ?v] =>
             destruct (ToString v) as [shown|] eqn:S;
             [rewrite (to_text_some _ _ S), ?bind_ret
             |rewrite (to_text_none _ S);
              left; eexists; split; [reflexivity | discriminate]]
         end.
  all: try (left; eexists; split; [reflexivity | discriminate]).
  all: rewrite easybusyFetch_run;
       match goal with
       | |- context [request_of ?p ?o] =>
           destruct (request_of p o) as [e|r] eqn:R;
           [left; exists e; split;
            [reflexivity | exact (request_of_error _ _ _ R)]
           |right; eexists; exists p, o, r;
            split; [reflexivity|]; split; [simpl; tauto|];
            split; [simpl; tauto|]; split; [exact R | reflexivity]]
       end.
Qed.

(** The dispatcher sends nothing on the channel. *)
Lemma handleToolCall_no_reply (name args : value) :
  replies (events (First.handleToolCall name args)) = [].
Proof.
  destruct (handleToolCall_cases name args)
    as [(e & -> & _)|(n & path & opts & r & _ & _ & _ & _ & ->)];
    reflexivity.
Qed.

End Dispatcher.

(** ** The message handler *)

Section Handler.
Context `{Runtime}.

Lemma documented_call_ext (name : string) (a b : value) :
  (forall k, get a k = get b k) ->
  documented_call name a = documented_call name b.
Proof.
  intros E. unfold documented_call, documented_message.
  rewrite !E.
  replace (documented_query (query_keys name) a)
    with (documented_query (query_keys name) b); [reflexivity|].
  unfold documented_query. f_equal.
  induction (query_keys name) as [|k ks IH]; [reflexivity|].
  simpl. now rewrite E, IH.
Qed.

Lemma documented_call_or_else (name : string) (args : value) :
  documented_call name (or_else args (VObj [])) = documented_call name args.
Proof. apply documented_call_ext. intros k. apply get_or_else. Qed.

Lemma plain_arguments_or_else (name : string) (args : value) :
  plain_arguments name args -> plain_arguments name (or_else args (VObj [])).
Proof.
  intros [Q S]. split.
  - intros k I. rewrite get_or_else. now apply Q.
  - intros E. rewrite get_or_else. now apply S.
Qed.

Lemma request_not_nullish (msg : value) : is_request msg -> nullish msg = false.
Proof. intros [members ->]. reflexivity. Qed.

(** What the handler does with a message that is not [null]: the three
    members are read, and the method decides. *)
Lemma on_message_request (raw : string) (msg : value) :
  JSON_parse raw = Some msg ->
  nullish msg = false ->
  First.on_message raw =
  try_catch
    (if strict_eq_str (get msg "method") "tools/list" then
       send (JSON_stringify
               (result_envelope (get msg "id")
                  (VObj [("tools", tools); ("nextCursor", VNull)])))
     else if strict_eq_str (get msg "method") "tools/call" then
       result <- First.handleToolCall (tool_name msg)
                   (or_else (tool_arguments msg) (VObj [])) ;;
       send (JSON_stringify (result_envelope (get msg "id") result))
     else
       send (JSON_stringify
               (error_envelope (get msg "id") (-32601)
                  (VStr "Unknown method"))))
    (fun err =>
       send (JSON_stringify
               (error_envelope (get msg "id") (-32000)
                  (VStr (message_of err))))).
Proof.
  intros P N. unfold First.on_message. rewrite P.
  rewrite !(destructure_defined _ _ _ N), !bind_ret.
  rewrite !(destructure_defined _ _ _ (or_else_not_nullish _)).
  rewrite !bind_ret, !get_or_else. reflexivity.
Qed.

Lemma on_message_request_second (raw : string) (msg : value) :
  JSON_parse raw = Some msg ->
  nullish msg = false ->
  Second.on_message raw =
  try_catch
    (if strict_eq_str (get msg "method") "tools/list" then
       send (JSON_stringify
               (result_envelope (get msg "id")
                  (VObj [("tools", tools); ("nextCursor", VNull)])))
     else if strict_eq_str (get msg "method") "tools/call" then
       result <- First.handleToolCall (tool_name msg)
                   (or_else (tool_arguments msg) (VObj [])) ;;
       send (JSON_stringify (result_envelope (get msg "id") result))
     else
       send (JSON_stringify
               (error_envelope (get msg "id") (-32601)
                  (VStr "Unknown method"))))
    (fun err =>
       send (JSON_stringify
               (error_envelope (get msg "id") (-32000)
                  (or_else (VStr (message_of err))
                     (VStr "Internal MCP error"))))).
Proof.
  intros P N. unfold Second.on_message. rewrite P.
  rewrite !(destructure_defined _ _ _ N), !bind_ret.
  rewrite !(destructure_defined _ _ _ (or_else_not_nullish _)).
  rewrite !bind_ret, !get_or_else.
  f_equal. destruct (strict_eq_str _ "tools/list"); [reflexivity|].
  destruct (strict_eq_str _ "tools/call"); [|reflexivity].
  now rewrite handleToolCall_same.
Qed.

(** A tools/call is the run of the dispatcher followed by one reply. *)
Lemma on_message_call (raw : string) (msg : value) :
  JSON_parse raw = Some msg ->
  nullish msg = false ->
  get msg "method" = VStr "tools/call" ->
  First.on_message raw =
    ((events (First.handleToolCall (tool_name msg)
                (or_else (tool_arguments msg) (VObj []))) ++
      [EvSend (JSON_stringify
                 (reply_of (get msg "id")
                    (outcome (First.handleToolCall (tool_name msg)
                                (or_else (tool_arguments msg) (VObj []))))))])
     %list, inr tt) /\
  Second.on_message raw =
    ((events (First.handleToolCall (tool_name msg)
                (or_else (tool_arguments msg) (VObj []))) ++
      [EvSend (JSON_stringify
                 (reply_of_second (get msg "id")
                    (outcome (First.handleToolCall (tool_name msg)
                                (or_else (tool_arguments msg) (VObj []))))))])
     %list, inr tt).
Proof.
  intros P N C.
  rewrite (on_message_request _ _ P N), (on_message_request_second _ _ P N).
  rewrite C. simpl strict_eq_str. cbv iota.
  destruct (First.handleToolCall _ _) as [evs [err|result]];
    split; reflexivity.
Qed.

Lemma in_fetches (r : Request) (evs : list event) :
  In (EvFetch r) evs -> In r (fetches evs).
Proof.
  intros I. unfold fetches. apply in_flat_map.
  exists (EvFetch r). split; [exact I | now left].
Qed.

(** Every run of the handler, by its upstream calls: none; or the one
    call of a tools/call that names a registered tool, and then the reply
    that the end of that call decides. *)
Lemma on_message_cases (raw : string) :
  (fetches (events (First.on_message raw)) = [] /\
   fetches (events (Second.on_message raw)) = []) \/
  (exists msg n r,
     JSON_parse raw = Some msg /\
     nullish msg = false /\
     get msg "method" = VStr "tools/call" /\
     tool_name msg = VStr n /\
     In n registered_names /\
     req_headers r = headers /\
     (req_method r = "GET" \/ req_method r = "POST") /\
     First.handleToolCall (tool_name msg)
       (or_else (tool_arguments msg) (VObj [])) = ([EvFetch r], settle r) /\
     First.on_message raw =
       ([EvFetch r;
         EvSend (JSON_stringify (reply_of (get msg "id") (settle r)))],
        inr tt) /\
     Second.on_message raw =
       ([EvFetch r;
         EvSend (JSON_stringify (reply_of_second (get msg "id") (settle r)))],
        inr tt)).
Proof.
  destruct (JSON_parse raw) as [msg|] eqn:P.
  2:{ left. unfold First.on_message, Second.on_message. rewrite P.
      split; reflexivity. }
  destruct (nullish msg) eqn:N.
  { left. unfold First.on_message, Second.on_message, destructure.
    rewrite P, N. split; reflexivity. }
  destruct (strict_eq_str (get msg "method") "tools/call") eqn:C.
  2:{ left.
      rewrite (on_message_request _ _ P N),
        (on_message_request_second _ _ P N), C.
      destruct (strict_eq_str _ "tools/list"); split; reflexivity. }
  apply strict_eq_str_true in C.
  destruct (on_message_call _ _ P N C) as [-> ->].
  destruct (handleToolCall_cases (tool_name msg)
              (or_else (tool_arguments msg) (VObj [])))
    as [(e & E & _)|(n & path & opts & r & T & I & G & R & E)].
  - left. rewrite E. split; reflexivity.
  - right. exists msg, n, r. rewrite E.
    destruct (request_of_inr _ _ _ R) as [RH RM].
    repeat split; try assumption.
    rewrite RM. destruct G as [-> | ->]; [left | right]; reflexivity.
Qed.

(** A run that holds an upstream call is that call and one reply. *)
Lemma on_message_fetch (raw : string) (r : Request) :
  In (EvFetch r) (events (First.on_message raw)) ->
  exists msg,
    JSON_parse raw = Some msg /\
    First.on_message raw =
      ([EvFetch r;
        EvSend (JSON_stringify (reply_of (get msg "id") (settle r)))],
       inr tt) /\
    Second.on_message raw =
      ([EvFetch r;
        EvSend (JSON_stringify (reply_of_second (get msg "id") (settle r)))],
       inr tt).
Proof.
  intros I.
  destruct (on_message_cases raw)
    as [[F _]|(msg & n & r' & P & _ & _ & _ & _ & _ & _ & _ & E1 & E2)].
  - apply in_fetches in I. rewrite F in I. destruct I.
  - rewrite E1 in I. destruct I as [I|[I|[]]]; [|discriminate I].
    injection I as ->. exists msg. repeat split; assumption.
Qed.

End Handler.

(** ** Messages that reach no tool *)

Section Protocol.
Context `{Runtime}.

(** C5.  A message that is not JSON gets exactly one reply, the parse-error
    envelope with code -32700 and a null id, whatever the message is, and
    nothing else happens: no upstream call, and the handler returns. *)
Theorem invalid_json_parse_error (raw : string) :
  JSON_parse raw = None ->
  First.on_message raw =
    ([EvSend (JSON_stringify
                (error_envelope VNull (-32700) (VStr "Invalid JSON")))],
     inr tt) /\
  Second.on_message raw =
    ([EvSend (JSON_stringify
                (error_envelope VNull (-32700) (VStr "Invalid JSON")))],
     inr tt).
Proof.
  intros P. unfold First.on_message, Second.on_message. rewrite P.
  split; reflexivity.
Qed.


(** C3, amended.  A tools/call that names no registered tool makes no
    upstream call; its one reply is an error envelope with code -32000
    and the id of the request.  The message is Unknown tool: followed by
    the name when the name is a text, by undefined when there is none, and
    by the text of the name whenever it has one; a name without a text
    gives the message of the failed conversion instead. *)
Theorem unknown_tool_error (raw : string) (msg : value) :
  JSON_parse raw = Some msg ->
  is_request msg ->
  get msg "method" = VStr "tools/call" ->
  (forall n, In n registered_names -> tool_name msg <> VStr n) ->
  exists m,
    First.on_message raw =
      ([EvSend (JSON_stringify
                  (error_envelope (get msg "id") (-32000) (VStr m)))],
       inr tt) /\
    Second.on_message raw =
      ([EvSend (JSON_stringify
                  (error_envelope (get msg "id") (-32000) (VStr m)))],
       inr tt) /\
    (forall s, tool_name msg = VStr s -> m = "Unknown tool: " ++ s) /\
    (tool_name msg = VUndefined -> m = "Unknown tool: undefined") /\
    (forall t, ToString (tool_name msg) = Some t ->
               m = "Unknown tool: " ++ t) /\
    (ToString (tool_name msg) = None ->
     m = "Cannot convert object to primitive value").
Proof.
  intros P R C U. apply request_not_nullish in R.
  destruct (on_message_call _ _ P R C) as [-> ->].
  rewrite (unregistered_dispatch _ _ U).
  destruct (ToString (tool_name msg)) as [t|] eqn:T.
  - rewrite (to_text_some _ _ T), bind_ret.
    exists ("Unknown tool: " ++ t).
    split; [reflexivity|]. split; [reflexivity|].
    split; [|split; [|split]];
      try (intros; congruence); try (intros ? E; now injection E as ->).
    + intros s E. rewrite E in T. simpl in T. now injection T as ->.
    + intros E. rewrite E in T. simpl in T. now injection T as <-.
  - rewrite (to_text_none _ T).
    exists "Cannot convert object to primitive value".
    split; [reflexivity|]. split; [reflexivity|].
    split; [|split; [|split]]; try congruence.
    + intros s E. rewrite E in T. discriminate T.
    + intros E. rewrite E in T. discriminate T.
Qed.

End Protocol.

Ltac unregistered_name :=
  let n := fresh "n" in
  let I := fresh "I" in
  intros n I; simpl in I;
  repeat (destruct I as [<-|I]; [discriminate|]); contradiction.

Ltac present_by_cases :=
  let k := fresh "k" in
  let I := fresh "I" in
  intros k I; cbv in I;
  repeat (destruct I as [<-|I]; [reflexivity|]); contradiction.

Lemma invalid_json_parse_error_witness :
  JSON_parse (Runtime := Samples.booked) Samples.truncated = None /\
  replies (events (First.on_message (H := Samples.booked) Samples.truncated)) =
    [Reference.js
       "{'jsonrpc':'2.0','id':null,'error':{'code':-32700,'message':'Invalid JSON'}}"].
Proof.
  split; [reflexivity|].
  rewrite (proj1 (@invalid_json_parse_error Samples.booked Samples.truncated
                    eq_refl)).
  reflexivity.
Defined.


Lemma unknown_tool_error_witness :
  First.on_message (H := Samples.booked) Samples.call_unknown_tool =
    ([EvSend
        (Reference.js
           ("{'jsonrpc':'2.0','id':4,'error':{'code':-32000," ++
            "'message':'Unknown tool: easybusy_cancel_slot'}}"))],
     inr tt).
Proof.
  destruct (@unknown_tool_error Samples.booked Samples.call_unknown_tool
              (Reference.parsed Samples.call_unknown_tool)
              eq_refl (ex_intro _ _ eq_refl) eq_refl
              ltac:(unregistered_name))
    as (m & E & _ & S & _).
  rewrite E, (S "easybusy_cancel_slot" eq_refl). reflexivity.
Defined.

(** C3 as the specification states it puts the name of the tool into the
    message of every such reply.  Here the name is an object with a member
    toString: the template literal of the last branch throws, and the
    message is the one of that TypeError, in which no tool is named. *)
Lemma unknown_tool_message_needs_text :
  exists msg : value,
    JSON_parse (Runtime := Samples.booked) Samples.call_object_name =
      Some msg /\
    is_request msg /\
    get msg "method" = VStr "tools/call" /\
    (forall n, In n registered_names -> tool_name msg <> VStr n) /\
    replies (events (First.on_message (H := Samples.booked)
                       Samples.call_object_name)) =
      [Reference.js
         ("{'jsonrpc':'2.0','id':13,'error':{'code':-32000,'message':" ++
          "'Cannot convert object to primitive value'}}")] /\
    replies (events (Second.on_message (H := Samples.booked)
                       Samples.call_object_name)) =
      [Reference.js
         ("{'jsonrpc':'2.0','id':13,'error':{'code':-32000,'message':" ++
          "'Cannot convert object to primitive value'}}")] /\
    ~ (exists shown,
         replies (events (First.on_message (H := Samples.booked)
                            Samples.call_object_name)) =
         [JSON_stringify (Runtime := Samples.booked)
            (error_envelope (get msg "id") (-32000)
               (VStr ("Unknown tool: " ++ shown)))]).
Proof.
  exists (Reference.parsed Samples.call_object_name).
  split; [reflexivity|]. split; [eexists; reflexivity|].
  split; [reflexivity|]. split; [unregistered_name|].
  split; [vm_compute; reflexivity|]. split; [vm_compute; reflexivity|].
  intros [shown E].
  assert (F : replies (events (First.on_message (H := Samples.booked)
                                 Samples.call_object_name)) =
              [Reference.js
                 ("{'jsonrpc':'2.0','id':13,'error':{'code':-32000," ++
                  "'message':'Cannot convert object to primitive value'}}")])
    by (vm_compute; reflexivity).
  rewrite F in E. clear F. cbv in E. discriminate E.
Qed.

(** ** Calls of registered tools *)

Section Calls.
Context `{Runtime}.

(** A call of a registered tool whose documented request has a plain
    path is that one upstream call and then one reply: the result when the
    call settles with a value, the error otherwise. *)
Lemma on_message_documented (raw : string) (msg : value) (name : string)
  (r : Request) :
  JSON_parse raw = Some msg ->
  is_request msg ->
  get msg "method" = VStr "tools/call" ->
  tool_name msg = VStr name ->
  documented_call name (tool_arguments msg) = Some r ->
  plain_path (pathname (req_url r)) = true ->
  First.handleToolCall (VStr name) (or_else (tool_arguments msg) (VObj [])) =
    ([EvFetch r], settle r) /\
  First.on_message raw =
    ([EvFetch r;
      EvSend (JSON_stringify (reply_of (get msg "id") (settle r)))],
     inr tt) /\
  Second.on_message raw =
    ([EvFetch r;
      EvSend (JSON_stringify (reply_of_second (get msg "id") (settle r)))],
     inr tt).
Proof.
  intros P R C N D L. apply request_not_nullish in R.
  assert (E : First.handleToolCall (VStr name)
                (or_else (tool_arguments msg) (VObj [])) =
              ([EvFetch r], settle r)).
  { apply handleToolCall_documented; [apply or_else_not_nullish| |exact L].
    now rewrite documented_call_or_else. }
  split; [exact E|].
  destruct (on_message_call _ _ P R C) as [-> ->].
  rewrite N, E. split; reflexivity.
Qed.


Lemma settle_parsed (r : Request) (res : Response) (parsed : value) :
  upstream r = inr res ->
  ok res = true ->
  JSON_parse (text res) = Some parsed ->
  settle r = inr parsed.
Proof.
  intros U O P. unfold settle. rewrite U, O.
  destruct (String.eqb_spec (text res) EmptyString) as [E|_].
  - rewrite E, JSON_parse_empty in P. discriminate.
  - now rewrite P.
Qed.

Lemma query_keys_required (name k : string) :
  In k (query_keys name) -> In k (required_of name).
Proof.
  unfold query_keys.
  destruct (String.eqb_spec name "easybusy_bookable_services") as [->|_];
    [intros I; exact I|].
  destruct (String.eqb_spec name "easybusy_available_slots") as [->|_];
    [intros I; exact I | intros []].
Qed.

Lemma required_query (name : string) (args : value) (r : Request) :
  required_present name args ->
  documented_call name args = Some r ->
  map fst (searchParams (req_url r)) = query_keys name.
Proof.
  intros A D.
  apply (documented_query_present _ args _ (documented_call_query _ _ _ D)).
  intros k I. apply A, query_keys_required, I.
Qed.

(** C1, amended.  A tools/call of a registered tool whose required
    arguments are present, whose query arguments are plain values (no
    array, no object) and whose slotId is a number makes exactly one
    upstream call, the documented one: its method, its path, and a query
    entry for each documented parameter.  When the upstream answers with a
    2xx status and a JSON body, the one reply carries that body, parsed, as
    the result, under the id of the request. *)
Theorem tools_call_relays_success (raw : string) (msg : value) (name : string) :
  JSON_parse raw = Some msg ->
  is_request msg ->
  get msg "method" = VStr "tools/call" ->
  tool_name msg = VStr name ->
  In name registered_names ->
  required_present name (tool_arguments msg) ->
  plain_arguments name (tool_arguments msg) ->
  exists r,
    documented_call name (tool_arguments msg) = Some r /\
    map fst (searchParams (req_url r)) = query_keys name /\
    fetches (events (First.on_message raw)) = [r] /\
    fetches (events (Second.on_message raw)) = [r] /\
    forall res parsed,
      upstream r = inr res ->
      ok res = true ->
      JSON_parse (text res) = Some parsed ->
      First.on_message raw =
        ([EvFetch r;
          EvSend (JSON_stringify (result_envelope (get msg "id") parsed))],
         inr tt) /\
      Second.on_message raw =
        ([EvFetch r;
          EvSend (JSON_stringify (result_envelope (get msg "id") parsed))],
         inr tt).
Proof.
  intros P R C N I A S.
  destruct (plain_documented _ _ I S) as (r & D & L).
  destruct (on_message_documented _ _ _ _ P R C N D L) as (_ & E1 & E2).
  exists r. split; [exact D|]. split; [exact (required_query _ _ _ A D)|].
  rewrite E1, E2. do 2 (split; [reflexivity|]).
  intros res parsed U O J. rewrite (settle_parsed _ _ _ U O J).
  split; reflexivity.
Qed.

(** C2, amended.  A tools/call of easybusy_request_slot with a slotId
    that is a number and with serviceId and patientInfo present makes one
    upstream call: a POST to /v2/simple-booking/request-slot/{slotId}, the
    number written as text, whose body is the JSON text of {serviceId,
    message, patientInfo}, the message being the one supplied, or the empty
    string when none is. *)
Theorem request_slot_posts_body (raw : string) (msg : value) (slot : Z) :
  JSON_parse raw = Some msg ->
  is_request msg ->
  get msg "method" = VStr "tools/call" ->
  tool_name msg = VStr "easybusy_request_slot" ->
  get (tool_arguments msg) "slotId" = VNum slot ->
  nullish (get (tool_arguments msg) "serviceId") = false ->
  nullish (get (tool_arguments msg) "patientInfo") = false ->
  exists message reply reply',
    (nullish (get (tool_arguments msg) "message") = false ->
     message = get (tool_arguments msg) "message") /\
    (nullish (get (tool_arguments msg) "message") = true ->
     message = VStr EmptyString) /\
    events (First.on_message raw) =
      [EvFetch
         (mkRequest
            (mkURL EASYBUSY_BASE_URL
               ("/v2/simple-booking/request-slot/" ++ Number_toString slot) [])
            "POST" headers
            (Some (JSON_stringify
                     (VObj [("serviceId", get (tool_arguments msg) "serviceId");
                            ("message", message);
                            ("patientInfo",
                             get (tool_arguments msg) "patientInfo")]))));
       EvSend reply] /\
    events (Second.on_message raw) =
      [EvFetch
         (mkRequest
            (mkURL EASYBUSY_BASE_URL
               ("/v2/simple-booking/request-slot/" ++ Number_toString slot) [])
            "POST" headers
            (Some (JSON_stringify
                     (VObj [("serviceId", get (tool_arguments msg) "serviceId");
                            ("message", message);
                            ("patientInfo",
                             get (tool_arguments msg) "patientInfo")]))));
       EvSend reply'].
Proof.
  intros P R C N S _ _.
  assert (D : documented_call "easybusy_request_slot" (tool_arguments msg) =
              Some (mkRequest
                      (mkURL EASYBUSY_BASE_URL
                         ("/v2/simple-booking/request-slot/" ++
                          Number_toString slot) [])
                      "POST" headers
                      (Some (JSON_stringify
                               (VObj [("serviceId",
                                       get (tool_arguments msg) "serviceId");
                                      ("message",
                                       documented_message (tool_arguments msg));
                                      ("patientInfo",
                                       get (tool_arguments msg)
                                         "patientInfo")]))))).
  { unfold documented_call. simpl. now rewrite S. }
  destruct (on_message_documented raw msg _ _ P R C N D
              (number_slot_plain slot)) as (_ & E1 & E2).
  exists (documented_message (tool_arguments msg)).
  eexists. eexists. rewrite E1, E2.
  split; [|split; [|split; reflexivity]].
  - unfold documented_message.
    destruct (get (tool_arguments msg) "message"); simpl; congruence.
  - unfold documented_message.
    destruct (get (tool_arguments msg) "message"); simpl; congruence.
Qed.


(** C9, amended.  The dispatcher checks no argument against the
    descriptor.  A tools/call of a registered tool whose query arguments,
    where given, are plain values and whose slotId, where given, is a
    number makes its upstream call whether or not the required arguments
    are there, and ends as that call ends; a query parameter whose argument
    is missing is left out of the URL, and a missing slotId goes into the
    request-slot path as the text undefined. *)
Theorem no_argument_validation (raw : string) (msg : value) (name : string) :
  JSON_parse raw = Some msg ->
  is_request msg ->
  get msg "method" = VStr "tools/call" ->
  tool_name msg = VStr name ->
  In name registered_names ->
  plain_arguments name (tool_arguments msg) ->
  exists r reply reply',
    documented_call name (tool_arguments msg) = Some r /\
    First.handleToolCall (VStr name) (or_else (tool_arguments msg) (VObj []))
      = ([EvFetch r], settle r) /\
    Second.handleToolCall (VStr name) (or_else (tool_arguments msg) (VObj []))
      = ([EvFetch r], settle r) /\
    events (First.on_message raw) = [EvFetch r; EvSend reply] /\
    events (Second.on_message raw) = [EvFetch r; EvSend reply'] /\
    (forall k, nullish (get (tool_arguments msg) k) = true ->
               ~ In k (map fst (searchParams (req_url r)))) /\
    (name = "easybusy_request_slot" ->
     get (tool_arguments msg) "slotId" = VUndefined ->
     pathname (req_url r) = "/v2/simple-booking/request-slot/undefined").
Proof.
  intros P R C N I S.
  destruct (plain_documented _ _ I S) as (r & D & L).
  destruct (on_message_documented _ _ _ _ P R C N D L) as (E & E1 & E2).
  exists r. eexists. eexists. rewrite E1, E2, handleToolCall_same.
  repeat split; try reflexivity; try assumption.
  - intros k A.
    exact (documented_query_absent _ _ _ _ (documented_call_query _ _ _ D) A).
  - intros -> U. unfold documented_call in D. simpl in D.
    rewrite U in D. simpl in D. injection D as <-. reflexivity.
Qed.

End Calls.

Lemma tools_call_relays_success_witness :
  exists r,
    fetches (events (First.on_message (H := Samples.booked)
                       Samples.book_slot_42)) = [r] /\
    First.on_message (H := Samples.booked) Samples.book_slot_42 =
      ([EvFetch r;
        EvSend (Reference.js "{'jsonrpc':'2.0','id':1,'result':{'bookingId':1}}")],
       inr tt).
Proof.
  destruct (@tools_call_relays_success Samples.booked Samples.book_slot_42
              (Reference.parsed Samples.book_slot_42) "easybusy_request_slot"
              eq_refl (ex_intro _ _ eq_refl) eq_refl eq_refl
              ltac:(simpl; tauto) ltac:(present_by_cases)
              ltac:(split;
                    [intros k I; simpl in I; contradiction
                    |intros _; right; exists 42; reflexivity]))
    as (r & D & _ & F & _ & K).
  exists r. split; [exact F|].
  injection D as <-.
  exact (proj1 (K (mkResponse 201 (Reference.js "{'bookingId':1}")) _
                  eq_refl eq_refl eq_refl)).
Defined.

(** C1 as the specification states it promises one documented call and
    its result for every call whose required arguments are present.  In
    each of the three runs here they are.  With an upstream that refuses
    with status 409 and a JSON body, the reply is the error envelope, not
    the result envelope of that body.  With a slotId that is an object
    with a member toString, no upstream call is made at all.  With a
    slotId that is a text of dot segments, the call goes to another
    path. *)
Lemma tools_call_result_needs_2xx :
  (exists (msg : value) (r : Request) (res : Response) (parsed : value),
     JSON_parse (Runtime := Samples.refusing) Samples.book_slot_42 =
       Some msg /\
     is_request msg /\
     get msg "method" = VStr "tools/call" /\
     tool_name msg = VStr "easybusy_request_slot" /\
     In "easybusy_request_slot" registered_names /\
     required_present "easybusy_request_slot" (tool_arguments msg) /\
     documented_call (H := Samples.refusing) "easybusy_request_slot"
       (tool_arguments msg) = Some r /\
     upstream (Runtime := Samples.refusing) r = inr res /\
     JSON_parse (Runtime := Samples.refusing) (text res) = Some parsed /\
     replies (events (First.on_message (H := Samples.refusing)
                        Samples.book_slot_42)) <>
       [JSON_stringify (Runtime := Samples.refusing)
          (result_envelope (get msg "id") parsed)] /\
     replies (events (Second.on_message (H := Samples.refusing)
                        Samples.book_slot_42)) <>
       [JSON_stringify (Runtime := Samples.refusing)
          (result_envelope (get msg "id") parsed)] /\
     replies (events (First.on_message (H := Samples.refusing)
                        Samples.book_slot_42)) =
       [Reference.js
          ("{'jsonrpc':'2.0','id':1,'error':{'code':-32000,'message':" ++
           "'EasyBusy POST /v2/simple-booking/request-slot/42 failed (409): " ++
           "{\'error\':\'slot taken\'}'}}")]) /\
  (exists msg : value,
     JSON_parse (Runtime := Samples.booked) Samples.book_slot_object =
       Some msg /\
     is_request msg /\
     get msg "method" = VStr "tools/call" /\
     tool_name msg = VStr "easybusy_request_slot" /\
     required_present "easybusy_request_slot" (tool_arguments msg) /\
     fetches (events (First.on_message (H := Samples.booked)
                        Samples.book_slot_object)) = [] /\
     fetches (events (Second.on_message (H := Samples.booked)
                        Samples.book_slot_object)) = []) /\
  (exists msg : value,
     JSON_parse (Runtime := Samples.booked) Samples.book_slot_elsewhere =
       Some msg /\
     is_request msg /\
     get msg "method" = VStr "tools/call" /\
     tool_name msg = VStr "easybusy_request_slot" /\
     required_present "easybusy_request_slot" (tool_arguments msg) /\
     map (fun r => pathname (req_url r))
       (fetches (events (First.on_message (H := Samples.booked)
                           Samples.book_slot_elsewhere))) =
       ["/v2/company/features"] /\
     map (fun r => pathname (req_url r))
       (fetches (events (Second.on_message (H := Samples.booked)
                           Samples.book_slot_elsewhere))) =
       ["/v2/company/features"]).
Proof.
  split; [|split].
  - eexists. eexists. eexists. eexists.
    split; [vm_compute; reflexivity|].
    split; [eexists; reflexivity|].
    split; [reflexivity|]. split; [reflexivity|].
    split; [simpl; tauto|].
    split; [present_by_cases|].
    split; [reflexivity|]. split; [reflexivity|].
    split; [vm_compute; reflexivity|].
    split; [vm_compute; discriminate|].
    split; [vm_compute; discriminate|].
    vm_compute. reflexivity.
  - exists (Reference.parsed Samples.book_slot_object).
    split; [reflexivity|]. split; [eexists; reflexivity|].
    split; [reflexivity|]. split; [reflexivity|].
    split; [present_by_cases|]. split; vm_compute; reflexivity.
  - exists (Reference.parsed Samples.book_slot_elsewhere).
    split; [reflexivity|]. split; [eexists; reflexivity|].
    split; [reflexivity|]. split; [reflexivity|].
    split; [present_by_cases|]. split; vm_compute; reflexivity.
Qed.

Lemma request_slot_posts_body_witness :
  exists reply,
    events (First.on_message (H := Samples.booked) Samples.book_slot_42) =
      [EvFetch
         (mkRequest
            (mkURL "https://api-b2b.easybusy.software"
               "/v2/simple-booking/request-slot/42" [])
            "POST"
            [("Content-Type", "application/json"); ("X-API-KEY", "secret")]
            (Some (Reference.js
                     "{'serviceId':7,'message':'','patientInfo':{'name':'A'}}")));
       EvSend reply].
Proof.
  destruct (@request_slot_posts_body Samples.booked Samples.book_slot_42
              (Reference.parsed Samples.book_slot_42) 42
              eq_refl (ex_intro _ _ eq_refl) eq_refl eq_refl
              eq_refl eq_refl eq_refl)
    as (message & reply & _ & _ & Absent & E & _).
  exists reply. rewrite E, (Absent eq_refl). reflexivity.
Defined.

(** C2 as the specification states it promises the POST to the
    request-slot path for every slotId that is present.  A slotId that is
    an object with a member toString makes the template literal throw:
    there is no upstream call.  A slotId that is a text of dot segments
    is resolved by the URL: the POST goes to /v2/company/features. *)
Lemma request_slot_needs_a_number :
  (exists msg : value,
     JSON_parse (Runtime := Samples.booked) Samples.book_slot_object =
       Some msg /\
     is_request msg /\
     get msg "method" = VStr "tools/call" /\
     tool_name msg = VStr "easybusy_request_slot" /\
     nullish (get (tool_arguments msg) "slotId") = false /\
     nullish (get (tool_arguments msg) "serviceId") = false /\
     nullish (get (tool_arguments msg) "patientInfo") = false /\
     events (First.on_message (H := Samples.booked)
               Samples.book_slot_object) =
       [EvSend
          (Reference.js
             ("{'jsonrpc':'2.0','id':11,'error':{'code':-32000,'message':" ++
              "'Cannot convert object to primitive value'}}"))] /\
     fetches (events (Second.on_message (H := Samples.booked)
                        Samples.book_slot_object)) = []) /\
  (exists msg : value,
     JSON_parse (Runtime := Samples.booked) Samples.book_slot_elsewhere =
       Some msg /\
     is_request msg /\
     get msg "method" = VStr "tools/call" /\
     tool_name msg = VStr "easybusy_request_slot" /\
     get (tool_arguments msg) "slotId" = VStr "../../company/features" /\
     nullish (get (tool_arguments msg) "serviceId") = false /\
     nullish (get (tool_arguments msg) "patientInfo") = false /\
     map (fun r => (req_method r, pathname (req_url r)))
       (fetches (events (First.on_message (H := Samples.booked)
                           Samples.book_slot_elsewhere))) =
       [("POST", "/v2/company/features")] /\
     map (fun r => (req_method r, pathname (req_url r)))
       (fetches (events (Second.on_message (H := Samples.booked)
                           Samples.book_slot_elsewhere))) =
       [("POST", "/v2/company/features")]).
Proof.
  split.
  - exists (Reference.parsed Samples.book_slot_object).
    repeat split; try reflexivity; try (eexists; reflexivity);
      vm_compute; reflexivity.
  - exists (Reference.parsed Samples.book_slot_elsewhere).
    repeat split; try reflexivity; try (eexists; reflexivity);
      vm_compute; reflexivity.
Qed.


Lemma no_argument_validation_witness :
  exists r reply,
    events (Second.on_message (H := Samples.silent)
              Samples.slots_without_dates) = [EvFetch r; EvSend reply] /\
    pathname (req_url r) = "/v2/simple-booking/available-slots" /\
    searchParams (req_url r) = [("languageCode", "en")].
Proof.
  destruct (@no_argument_validation Samples.silent Samples.slots_without_dates
              (Reference.parsed Samples.slots_without_dates)
              "easybusy_available_slots"
              eq_refl (ex_intro _ _ eq_refl) eq_refl eq_refl
              ltac:(simpl; tauto)
              ltac:(split;
                    [intros k I; simpl in I;
                     repeat (destruct I as [<-|I]; [reflexivity|]);
                     contradiction
                    |discriminate]))
    as (r & reply & reply' & D & _ & _ & _ & E & _).
  exists r, reply'. split; [exact E|].
  injection D as <-. split; reflexivity.
Defined.

(** C9 as the specification states it has the dispatcher make its
    upstream call for every argument mapping, never failing on its own.
    With a slotId that is an object with a member toString the dispatcher
    does fail on its own: the template literal throws, no upstream call is
    made, and the reply is the error of the conversion. *)
Lemma object_argument_fails_locally :
  exists msg : value,
    JSON_parse (Runtime := Samples.booked) Samples.book_slot_object =
      Some msg /\
    is_request msg /\
    get msg "method" = VStr "tools/call" /\
    tool_name msg = VStr "easybusy_request_slot" /\
    In "easybusy_request_slot" registered_names /\
    First.handleToolCall (H := Samples.booked) (VStr "easybusy_request_slot")
      (or_else (tool_arguments msg) (VObj [])) =
      throw (TypeError "Cannot convert object to primitive value") /\
    Second.handleToolCall (H := Samples.booked) (VStr "easybusy_request_slot")
      (or_else (tool_arguments msg) (VObj [])) =
      throw (TypeError "Cannot convert object to primitive value") /\
    fetches (events (First.on_message (H := Samples.booked)
                       Samples.book_slot_object)) = [] /\
    fetches (events (Second.on_message (H := Samples.booked)
                       Samples.book_slot_object)) = [].
Proof.
  exists (Reference.parsed Samples.book_slot_object).
  split; [reflexivity|]. split; [eexists; reflexivity|].
  split; [reflexivity|]. split; [reflexivity|]. split; [simpl; tauto|].
  repeat split; vm_compute; reflexivity.
Qed.

(** ** The plain HTTP listener *)

Section Http.
Context `{Runtime}.

(** C7, amended.  A request for /health is answered 200 with the JSON
    text of {status: ok, uptime}, by GET as by any other method; a GET of
    /mcp is answered 200 with the JSON text of {status: ready, mcp: true};
    a request for any other URL is answered 404 without a body. *)
Theorem http_endpoints (req : IncomingMessage) (uptime : value) :
  (url req = "/health" ->
   First.on_request req uptime =
     mkServerResponse 200 [("Content-Type", "application/json")]
       (Some (JSON_stringify
                (VObj [("status", VStr "ok"); ("uptime", uptime)]))) /\
   Second.on_request req uptime =
     mkServerResponse 200 [("Content-Type", "application/json")]
       (Some (JSON_stringify
                (VObj [("status", VStr "ok"); ("uptime", uptime)])))) /\
  (url req = "/mcp" -> http_method req = "GET" ->
   First.on_request req uptime =
     mkServerResponse 200 [("Content-Type", "application/json")]
       (Some (JSON_stringify
                (VObj [("status", VStr "ready"); ("mcp", VBool true)]))) /\
   Second.on_request req uptime =
     mkServerResponse 200 [("Content-Type", "application/json")]
       (Some (JSON_stringify
                (VObj [("status", VStr "ready"); ("mcp", VBool true)])))) /\
  (url req <> "/health" -> url req <> "/mcp" ->
   First.on_request req uptime = mkServerResponse 404 [] None /\
   Second.on_request req uptime = mkServerResponse 404 [] None).
Proof.
  unfold First.on_request, Second.on_request.
  split; [|split].
  - intros ->. split; reflexivity.
  - intros -> ->. split; reflexivity.
  - intros NH NM.
    apply String.eqb_neq in NH. apply String.eqb_neq in NM.
    rewrite NH, NM. split; reflexivity.
Qed.

(** The two revisions part on the other methods of /mcp: the first
    answers them like a GET, the second with 404. *)
Lemma mcp_other_methods (req : IncomingMessage) (uptime : value) :
  url req = "/mcp" ->
  http_method req <> "GET" ->
  statusCode (First.on_request req uptime) = 200 /\
  Second.on_request req uptime = mkServerResponse 404 [] None.
Proof.
  intros U NG. unfold First.on_request, Second.on_request. rewrite U.
  apply String.eqb_neq in NG. rewrite NG. split; reflexivity.
Qed.

End Http.

Lemma http_endpoints_witness :
  Second.on_request (H := Samples.silent) (mkIncoming "/health" "GET")
    (VNum 12) =
    mkServerResponse 200 [("Content-Type", "application/json")]
      (Some (Reference.js "{'status':'ok','uptime':12}")) /\
  First.on_request (H := Samples.silent) (mkIncoming "/mcp" "GET") (VNum 12) =
    mkServerResponse 200 [("Content-Type", "application/json")]
      (Some (Reference.js "{'status':'ready','mcp':true}")) /\
  First.on_request (H := Samples.silent) (mkIncoming "/" "GET") (VNum 12) =
    mkServerResponse 404 [] None.
Proof.
  split; [|split].
  - exact (proj2 (proj1 (@http_endpoints Samples.silent
                           (mkIncoming "/health" "GET") (VNum 12)) eq_refl)).
  - exact (proj1 (proj1 (proj2 (@http_endpoints Samples.silent
                                  (mkIncoming "/mcp" "GET") (VNum 12)))
                    eq_refl eq_refl)).
  - exact (proj1 (proj2 (proj2 (@http_endpoints Samples.silent
                                  (mkIncoming "/" "GET") (VNum 12)))
                    ltac:(discriminate) ltac:(discriminate))).
Defined.

(** C7 as the specification states it sends every request that is not a
    GET of /health or of /mcp to 404.  A POST of /health is neither, and
    both revisions answer it 200 with the health body. *)
Lemma post_health_is_answered :
  exists (req : IncomingMessage) (uptime : value),
    ~ (url req = "/health" /\ http_method req = "GET") /\
    ~ (url req = "/mcp" /\ http_method req = "GET") /\
    First.on_request (H := Samples.silent) req uptime <>
      mkServerResponse 404 [] None /\
    Second.on_request (H := Samples.silent) req uptime <>
      mkServerResponse 404 [] None /\
    statusCode (First.on_request (H := Samples.silent) req uptime) = 200 /\
    statusCode (Second.on_request (H := Samples.silent) req uptime) = 200.
Proof.
  exists (mkIncoming "/health" "POST"), (VNum 12). simpl.
  repeat split; try discriminate; intros [_ E]; discriminate E.
Qed.

(** ** Successful responses *)

Section Success.
Context `{Runtime}.

(** C8, amended.  When the upstream answers with a 2xx status the client
    returns and does not throw.  An empty body gives [null] and is not
    parsed; a body that is not empty is parsed as JSON, and when that fails
    the text itself is returned. *)
Theorem successful_response_never_throws (path : string) (opts : FetchOptions)
  (r : Request) (res : Response) :
  request_of path opts = inr r ->
  upstream r = inr res ->
  ok res = true ->
  exists v,
    First.easybusyFetch path opts = ([EvFetch r], inr v) /\
    Second.easybusyFetch path opts = ([EvFetch r], inr v) /\
    (text res = EmptyString -> v = VNull) /\
    (text res <> EmptyString ->
     forall parsed, JSON_parse (text res) = Some parsed -> v = parsed) /\
    (text res <> EmptyString ->
     JSON_parse (text res) = None -> v = VStr (text res)).
Proof.
  intros Q U O. rewrite easybusyFetch_same, easybusyFetch_run, Q.
  unfold settle. rewrite U, O.
  eexists. split; [reflexivity|]. split; [reflexivity|].
  destruct (String.eqb_spec (text res) EmptyString) as [E|N].
  - repeat split; intros; congruence.
  - repeat split; try congruence.
    + intros _ parsed P. now rewrite P.
    + intros _ P. now rewrite P.
Qed.

End Success.

Lemma successful_response_never_throws_witness :
  exists r,
    First.easybusyFetch (H := Samples.plain) "/v2/company/languages"
      no_options = ([EvFetch r], inr (VStr "OK")).
Proof.
  eexists.
  destruct (@successful_response_never_throws Samples.plain
              "/v2/company/languages" no_options _ (mkResponse 200 "OK")
              eq_refl eq_refl eq_refl)
    as (v & E & _ & _ & _ & Raw).
  rewrite E, (Raw ltac:(discriminate) eq_refl). reflexivity.
Defined.

(** C8 as the specification states it returns the text of the body
    whenever the body does not parse.  The empty body does not parse, and
    the client returns [null] for it, not the empty text. *)
Lemma empty_body_is_null :
  exists (path : string) (opts : FetchOptions) (r : Request) (res : Response),
    request_of (H := Samples.silent) path opts = inr r /\
    upstream (Runtime := Samples.silent) r = inr res /\
    ok res = true /\
    JSON_parse (Runtime := Samples.silent) (text res) = None /\
    outcome (First.easybusyFetch (H := Samples.silent) path opts) <>
      inr (VStr (text res)) /\
    outcome (Second.easybusyFetch (H := Samples.silent) path opts) <>
      inr (VStr (text res)) /\
    outcome (First.easybusyFetch (H := Samples.silent) path opts) = inr VNull /\
    outcome (Second.easybusyFetch (H := Samples.silent) path opts) = inr VNull.
Proof.
  exists "/v2/company/features", no_options. eexists.
  exists (mkResponse 200 EmptyString).
  split; [reflexivity|].
  repeat split; try reflexivity; vm_compute; discriminate.
Qed.

(** ** One reply for each message *)

Section Replies.
Context `{Runtime}.

(** A message that is JSON and not [null] gets exactly one reply, and the
    handler returns. *)
Lemma one_reply_unless_null (raw : string) :
  (forall msg, JSON_parse raw = Some msg -> nullish msg = false) ->
  (exists reply, replies (events (First.on_message raw)) = [reply]) /\
  (exists reply, replies (events (Second.on_message raw)) = [reply]) /\
  outcome (First.on_message raw) = inr tt /\
  outcome (Second.on_message raw) = inr tt.
Proof.
  intros N. destruct (JSON_parse raw) as [msg|] eqn:P.
  - specialize (N msg eq_refl).
    rewrite (on_message_request _ _ P N), (on_message_request_second _ _ P N).
    destruct (strict_eq_str _ "tools/list"); [repeat split; eexists; reflexivity|].
    destruct (strict_eq_str _ "tools/call");
      [|repeat split; eexists; reflexivity].
    pose proof (handleToolCall_no_reply (tool_name msg)
                  (or_else (tool_arguments msg) (VObj []))) as Q.
    destruct (First.handleToolCall _ _) as [evs [err|result]];
      unfold events in *; simpl in *; unfold replies in *;
      rewrite !flat_map_app, Q; simpl; repeat split; eexists; reflexivity.
  - destruct (invalid_json_parse_error raw P) as [-> ->].
    repeat split; eexists; reflexivity.
Qed.

(** The message [null] is JSON.  Binding its members throws before the
    handler has entered its [try], so nothing is sent and the handler ends
    with the error. *)
Lemma null_message_rejects (raw : string) :
  JSON_parse raw = Some VNull ->
  First.on_message raw =
    ([], inl (TypeError
                "Cannot destructure property 'id' of 'msg' as it is null.")) /\
  Second.on_message raw =
    ([], inl (TypeError
                "Cannot destructure property 'id' of 'data' as it is null.")).
Proof.
  intros P. unfold First.on_message, Second.on_message. rewrite P.
  split; reflexivity.
Qed.

End Replies.

(** C10 fails on the message null: it is valid JSON, and neither revision
    replies to it.  The handler makes no upstream call, sends nothing and
    ends with a [TypeError] that nothing catches. *)
Theorem null_message_unanswered :
  JSON_parse (Runtime := Samples.silent) "null" = Some VNull /\
  events (First.on_message (H := Samples.silent) "null") = [] /\
  events (Second.on_message (H := Samples.silent) "null") = [] /\
  (exists m, outcome (First.on_message (H := Samples.silent) "null") =
             inl (TypeError m)) /\
  (exists m, outcome (Second.on_message (H := Samples.silent) "null") =
             inl (TypeError m)).
Proof.
  destruct (@null_message_rejects Samples.silent "null" eq_refl) as [-> ->].
  repeat split; eexists; reflexivity.
Qed.


(** * Further properties of the code *)

(** ** Listing, and messages with missing parts *)

Section Edges.
Context `{Runtime}.

(** X1.  A request with method tools/list gets one reply, the result
    envelope under its id that holds the whole registry and a null
    nextCursor; no upstream call is made. *)
Theorem tools_list_reply (raw : string) (msg : value) :
  JSON_parse raw = Some msg ->
  nullish msg = false ->
  get msg "method" = VStr "tools/list" ->
  First.on_message raw =
    ([EvSend (JSON_stringify
                (result_envelope (get msg "id")
                   (VObj [("tools", tools); ("nextCursor", VNull)])))],
     inr tt) /\
  Second.on_message raw =
    ([EvSend (JSON_stringify
                (result_envelope (get msg "id")
                   (VObj [("tools", tools); ("nextCursor", VNull)])))],
     inr tt).
Proof.
  intros P N L.
  rewrite (on_message_request _ _ P N), (on_message_request_second _ _ P N).
  rewrite L. split; reflexivity.
Qed.

(** X2.  When [fetch] itself rejects, the tools/call that made the call
    is answered with the -32000 envelope.  The first revision sends the
    message of the rejection as it is, empty or not; the second sends
    Internal MCP error in place of an empty message. *)
Theorem fetch_rejection_reply (raw : string) (msg : value) (r : Request)
  (e : exn) :
  JSON_parse raw = Some msg ->
  In (EvFetch r) (events (First.on_message raw)) ->
  upstream r = inl e ->
  First.on_message raw =
    ([EvFetch r;
      EvSend (JSON_stringify
                (error_envelope (get msg "id") (-32000)
                   (VStr (message_of e))))],
     inr tt) /\
  Second.on_message raw =
    ([EvFetch r;
      EvSend (JSON_stringify
                (error_envelope (get msg "id") (-32000)
                   (VStr (if String.eqb (message_of e) EmptyString
                          then "Internal MCP error" else message_of e))))],
     inr tt).
Proof.
  intros P I U.
  destruct (on_message_fetch _ _ I) as (msg' & P' & -> & ->).
  rewrite P in P'. injection P' as <-.
  unfold settle. rewrite U. split; [reflexivity|].
  unfold reply_of_second, or_else. simpl.
  destruct (String.eqb (message_of e) EmptyString); reflexivity.
Qed.

(** X3.  A tools/call whose params are missing, or are anything but an
    object, names no tool: it is answered with the -32000 envelope saying
    Unknown tool: undefined, and no upstream call is made. *)
Theorem call_without_params_reply (raw : string) (msg : value) :
  JSON_parse raw = Some msg ->
  is_request msg ->
  get msg "method" = VStr "tools/call" ->
  (forall members, get msg "params" <> VObj members) ->
  First.on_message raw =
    ([EvSend (JSON_stringify
                (error_envelope (get msg "id") (-32000)
                   (VStr "Unknown tool: undefined")))],
     inr tt) /\
  Second.on_message raw =
    ([EvSend (JSON_stringify
                (error_envelope (get msg "id") (-32000)
                   (VStr "Unknown tool: undefined")))],
     inr tt).
Proof.
  intros P R C NP. apply request_not_nullish in R.
  destruct (on_message_call _ _ P R C) as [-> ->].
  assert (E : tool_name msg = VUndefined).
  { unfold tool_name. destruct (get msg "params"); try reflexivity.
    now destruct (NP members). }
  rewrite E. rewrite unregistered_dispatch by (intros n _; discriminate).
  split; reflexivity.
Qed.

Lemma documented_query_none (keys : list string) :
  documented_query keys (VObj []) = Some [].
Proof.
  unfold documented_query.
  induction keys as [|k ks IH]; [reflexivity | exact IH].
Qed.

(** X4.  Arguments that are not an object (absent, null, a number, a
    text, an array) count as the empty mapping: a registered tool makes the
    very call it makes for no arguments at all. *)
Theorem arguments_default_to_empty (raw : string) (msg : value)
  (name : string) :
  JSON_parse raw = Some msg ->
  is_request msg ->
  get msg "method" = VStr "tools/call" ->
  tool_name msg = VStr name ->
  In name registered_names ->
  (forall members,
     tool_arguments msg = VObj members ->
     forall k, lookup k members = VUndefined) ->
  exists r,
    documented_call name (VObj []) = Some r /\
    searchParams (req_url r) = [] /\
    fetches (events (First.on_message raw)) = [r] /\
    fetches (events (Second.on_message raw)) = [r].
Proof.
  intros P R C N I A.
  destruct (plain_documented name (VObj []) I) as (r & D & L).
  { split; [reflexivity | intros _; now left]. }
  assert (D' : documented_call name (tool_arguments msg) = Some r).
  { rewrite <- D. apply documented_call_ext. intros k.
    destruct (tool_arguments msg) eqn:E; try reflexivity.
    simpl. now rewrite (A members eq_refl k). }
  destruct (on_message_documented _ _ _ _ P R C N D' L) as (_ & -> & ->).
  exists r. repeat split; try assumption.
  pose proof (documented_call_query _ _ _ D) as Q.
  rewrite documented_query_none in Q. now injection Q as <-.
Qed.

(** X5.  A message that is JSON but neither an object nor null (a number,
    a text, a boolean, an array) has no method and no id: the reply is the
    method-not-found envelope built without an id. *)
Theorem scalar_message_reply (raw : string) (msg : value) :
  JSON_parse raw = Some msg ->
  nullish msg = false ->
  (forall members, msg <> VObj members) ->
  First.on_message raw =
    ([EvSend (JSON_stringify
                (error_envelope VUndefined (-32601) (VStr "Unknown method")))],
     inr tt) /\
  Second.on_message raw =
    ([EvSend (JSON_stringify
                (error_envelope VUndefined (-32601) (VStr "Unknown method")))],
     inr tt).
Proof.
  intros P N O.
  rewrite (on_message_request _ _ P N), (on_message_request_second _ _ P N).
  destruct msg; try discriminate; try (split; reflexivity).
  now destruct (O members).
Qed.

End Edges.

Lemma tools_list_reply_witness :
  exists reply,
    First.on_message (H := Samples.offline) Samples.list_tools =
      ([EvSend reply], inr tt) /\
    Reference.parse reply =
      Some (VObj [("jsonrpc", VStr "2.0"); ("id", VNum 8);
                  ("result", VObj [("tools", tools); ("nextCursor", VNull)])]).
Proof.
  eexists. split.
  - exact (proj1 (@tools_list_reply Samples.offline Samples.list_tools
                    (Reference.parsed Samples.list_tools)
                    eq_refl eq_refl eq_refl)).
  - vm_compute. reflexivity.
Defined.

Lemma fetch_rejection_reply_witness :
  replies (events (First.on_message (H := Samples.mute)
                     Samples.list_features)) =
    [Reference.js
       "{'jsonrpc':'2.0','id':3,'error':{'code':-32000,'message':''}}"] /\
  replies (events (Second.on_message (H := Samples.mute)
                     Samples.list_features)) =
    [Reference.js
       ("{'jsonrpc':'2.0','id':3,'error':{'code':-32000," ++
        "'message':'Internal MCP error'}}")].
Proof.
  destruct (@fetch_rejection_reply Samples.mute Samples.list_features
              (Reference.parsed Samples.list_features) _ (Error EmptyString)
              eq_refl (or_introl eq_refl) eq_refl)
    as [-> ->].
  split; reflexivity.
Defined.

Lemma call_without_params_reply_witness :
  replies (events (Second.on_message (H := Samples.offline)
                     Samples.call_without_params)) =
    [Reference.js
       ("{'jsonrpc':'2.0','id':9,'error':{'code':-32000," ++
        "'message':'Unknown tool: undefined'}}")].
Proof.
  rewrite (proj2 (@call_without_params_reply Samples.offline
                    Samples.call_without_params
                    (Reference.parsed Samples.call_without_params)
                    eq_refl (ex_intro _ _ eq_refl) eq_refl
                    ltac:(intros members; discriminate))).
  reflexivity.
Defined.

Lemma arguments_default_to_empty_witness :
  exists r,
    fetches (events (First.on_message (H := Samples.silent)
                       Samples.call_with_text_arguments)) = [r] /\
    pathname (req_url r) = "/v2/simple-booking/bookable-services" /\
    searchParams (req_url r) = [].
Proof.
  destruct (@arguments_default_to_empty Samples.silent
              Samples.call_with_text_arguments
              (Reference.parsed Samples.call_with_text_arguments)
              "easybusy_bookable_services"
              eq_refl (ex_intro _ _ eq_refl) eq_refl eq_refl
              ltac:(simpl; tauto)
              ltac:(intros members E; discriminate E))
    as (r & D & Q & F & _).
  exists r. split; [exact F|]. split; [|exact Q].
  injection D as <-. reflexivity.
Defined.

Lemma scalar_message_reply_witness :
  replies (events (First.on_message (H := Samples.offline)
                     Samples.scalar_message)) =
    [Reference.js
       "{'jsonrpc':'2.0','error':{'code':-32601,'message':'Unknown method'}}"].
Proof.
  rewrite (proj1 (@scalar_message_reply Samples.offline Samples.scalar_message
                    (VNum 42) eq_refl eq_refl
                    ltac:(intros members; discriminate))).
  reflexivity.
Defined.

(** ** What the handler and the dispatcher never do *)

Section Invariants.
Context `{Runtime}.

(** X6.  Whatever a message that is JSON and not null asks for, its one
    reply is sent last, and it is either a result envelope or an error
    envelope with code -32601 or -32000 and a text as message, in each case
    under the id read from the message. *)
Theorem reply_envelope_shape (raw : string) (msg : value) :
  JSON_parse raw = Some msg ->
  nullish msg = false ->
  exists evs env evs' env',
    First.on_message raw =
      ((evs ++ [EvSend (JSON_stringify env)])%list, inr tt) /\
    Second.on_message raw =
      ((evs' ++ [EvSend (JSON_stringify env')])%list, inr tt) /\
    replies evs = [] /\ replies evs' = [] /\
    ((exists result, env = result_envelope (get msg "id") result) \/
     (exists code m,
        env = error_envelope (get msg "id") code (VStr m) /\
        (code = -32601 \/ code = -32000))) /\
    ((exists result, env' = result_envelope (get msg "id") result) \/
     (exists code m,
        env' = error_envelope (get msg "id") code (VStr m) /\
        (code = -32601 \/ code = -32000))).
Proof.
  intros P N.
  rewrite (on_message_request _ _ P N), (on_message_request_second _ _ P N).
  destruct (strict_eq_str _ "tools/list").
  { exists []. eexists. exists []. eexists.
    split; [reflexivity|]. split; [reflexivity|].
    do 2 (split; [reflexivity|]).
    split; left; eexists; reflexivity. }
  destruct (strict_eq_str _ "tools/call").
  2:{ exists []. eexists. exists []. eexists.
      split; [reflexivity|]. split; [reflexivity|].
      do 2 (split; [reflexivity|]).
      split; right; exists (-32601); eexists;
        (split; [reflexivity | left; reflexivity]). }
  pose proof (handleToolCall_no_reply (tool_name msg)
                (or_else (tool_arguments msg) (VObj []))) as Q.
  destruct (First.handleToolCall _ _) as [evs [err|result]];
    unfold events in Q; simpl in Q.
  - exists evs. eexists. exists evs. eexists.
    split; [reflexivity|]. split; [reflexivity|].
    do 2 (split; [assumption|]).
    split; right; exists (-32000).
    + exists (message_of err). split; [reflexivity | right; reflexivity].
    + unfold or_else. simpl.
      destruct (String.eqb (message_of err) EmptyString);
        eexists; (split; [reflexivity | right; reflexivity]).
  - exists evs. eexists. exists evs. eexists.
    split; [reflexivity|]. split; [reflexivity|].
    do 2 (split; [assumption|]).
    split; left; eexists; reflexivity.
Qed.

(** X7.  One message makes at most one upstream call, and only a
    tools/call whose name is the text of a registered name makes one; the
    call carries the two configured headers, and its method is GET or
    POST. *)
Theorem upstream_calls_are_documented (raw : string) :
  (fetches (events (First.on_message raw)) = [] /\
   fetches (events (Second.on_message raw)) = []) \/
  (exists msg name r,
     JSON_parse raw = Some msg /\
     get msg "method" = VStr "tools/call" /\
     tool_name msg = VStr name /\
     In name registered_names /\
     fetches (events (First.on_message raw)) = [r] /\
     fetches (events (Second.on_message raw)) = [r] /\
     req_headers r =
       [("Content-Type", "application/json");
        ("X-API-KEY", EASYBUSY_API_KEY)] /\
     (req_method r = "GET" \/ req_method r = "POST")).
Proof.
  destruct (on_message_cases raw)
    as [F|(msg & n & r & P & _ & C & T & I & RH & RM & _ & E1 & E2)];
    [left; exact F|].
  right. exists msg, n, r. rewrite E1, E2.
  repeat split; assumption.
Qed.

Lemma settle_error_message (r : Request) (e : exn) :
  (forall r' e', upstream r' = inl e' -> message_of e' <> EmptyString) ->
  settle r = inl e -> message_of e <> EmptyString.
Proof.
  intros U. unfold settle. destruct (upstream r) as [e'|res] eqn:E.
  - intros S. injection S as <-. exact (U r e' E).
  - destruct (ok res); [discriminate|].
    intros S. injection S as <-. discriminate.
Qed.

(** X8.  The two revisions of the handler put the same events on the
    wire for every message, provided a rejection of [fetch] always has a
    message; the fallback text of the second revision is the only thing
    that can tell them apart. *)
Theorem handlers_agree (raw : string) :
  (forall r e, upstream r = inl e -> message_of e <> EmptyString) ->
  events (Second.on_message raw) = events (First.on_message raw).
Proof.
  intros U. destruct (JSON_parse raw) as [msg|] eqn:P.
  2:{ now destruct (invalid_json_parse_error raw P) as [-> ->]. }
  destruct (nullish msg) eqn:N.
  { unfold First.on_message, Second.on_message, destructure.
    rewrite P, N. reflexivity. }
  destruct (strict_eq_str (get msg "method") "tools/call") eqn:C.
  2:{ rewrite (on_message_request _ _ P N),
        (on_message_request_second _ _ P N), C.
      destruct (strict_eq_str _ "tools/list"); reflexivity. }
  apply strict_eq_str_true in C.
  destruct (on_message_call _ _ P N C) as [-> ->].
  destruct (handleToolCall_cases (tool_name msg)
              (or_else (tool_arguments msg) (VObj [])))
    as [(e & -> & NE)|(n & path & opts & r & _ & _ & _ & _ & ->)].
  - simpl. now rewrite (or_else_message _ _ NE).
  - unfold events, outcome. simpl.
    destruct (settle r) as [e|v] eqn:S; [|reflexivity].
    simpl. now rewrite (or_else_message _ _ (settle_error_message _ _ U S)).
Qed.

(** X9.  The switch of the dispatcher and the registry name the same
    tools.  Whatever the arguments, a name reaches the upstream only if it
    is the text of a name the registry advertises; and with arguments that
    are not null and are plain, every advertised name does reach it. *)
Theorem registry_matches_dispatcher (name args : value) :
  ((exists r, events (First.handleToolCall name args) = [EvFetch r]) ->
   exists n, name = VStr n /\ In n registered_names) /\
  ((exists r, events (Second.handleToolCall name args) = [EvFetch r]) ->
   exists n, name = VStr n /\ In n registered_names) /\
  (forall n,
     name = VStr n -> In n registered_names ->
     nullish args = false -> plain_arguments n args ->
     (exists r, events (First.handleToolCall name args) = [EvFetch r]) /\
     (exists r, events (Second.handleToolCall name args) = [EvFetch r])).
Proof.
  rewrite handleToolCall_same.
  assert (G : (exists r, events (First.handleToolCall name args) = [EvFetch r])
              -> exists n, name = VStr n /\ In n registered_names).
  { destruct (handleToolCall_cases name args)
      as [(e & -> & _)|(n & path & opts & r & -> & I & _)].
    - intros [r F]. discriminate F.
    - intros _. exists n. split; [reflexivity | exact I]. }
  split; [exact G|]. split; [exact G|].
  intros n -> I N S.
  destruct (plain_documented _ _ I S) as (r & D & L).
  rewrite (handleToolCall_documented _ _ _ N D L).
  split; exists r; reflexivity.
Qed.

(** X10.  The dispatcher returns a value exactly when it made an upstream
    call and the upstream answered it with a status from 200 to 299; when
    it makes no call, when the fetch is rejected and on every other status
    it throws. *)
Theorem dispatcher_returns_iff_2xx (name args : value) :
  ((exists v, outcome (First.handleToolCall name args) = inr v) <->
   (exists r res,
      events (First.handleToolCall name args) = [EvFetch r] /\
      upstream r = inr res /\ 200 <= status res <= 299)) /\
  ((exists v, outcome (Second.handleToolCall name args) = inr v) <->
   (exists r res,
      events (Second.handleToolCall name args) = [EvFetch r] /\
      upstream r = inr res /\ 200 <= status res <= 299)).
Proof.
  rewrite handleToolCall_same.
  assert (G : (exists v, outcome (First.handleToolCall name args) = inr v) <->
              (exists r res,
                 events (First.handleToolCall name args) = [EvFetch r] /\
                 upstream r = inr res /\ 200 <= status res <= 299)).
  { destruct (handleToolCall_cases name args)
      as [(e & -> & _)|(n & path & opts & r & _ & _ & _ & _ & ->)].
    - split; [intros [v E]; discriminate E|].
      intros (r & res & E & _). discriminate E.
    - unfold outcome, events, settle. simpl. split.
      + intros [v E].
        destruct (upstream r) as [e|res] eqn:U0; [discriminate E|].
        exists r, res. split; [reflexivity|]. split; [exact U0|].
        unfold ok in E.
        destruct (200 <=? status res) eqn:L, (status res <=? 299) eqn:U;
          simpl in E; try discriminate E. lia.
      + intros (r' & res & E & U & L). injection E as <-.
        rewrite U. unfold ok.
        replace (200 <=? status res) with true by lia.
        replace (status res <=? 299) with true by lia.
        simpl. eauto. }
  split; exact G.
Qed.

(** X11.  Called with [null] or [undefined] for arguments, the dispatcher
    throws a [TypeError] before any upstream call for the three tools that
    read an argument, and serves the three that read none as usual. *)
Theorem dispatcher_without_arguments (name : string) (args : value) :
  nullish args = true ->
  (In name ["easybusy_bookable_services"; "easybusy_available_slots";
            "easybusy_request_slot"] ->
   events (First.handleToolCall (VStr name) args) = [] /\
   events (Second.handleToolCall (VStr name) args) = [] /\
   (exists m, outcome (First.handleToolCall (VStr name) args) =
              inl (TypeError m)) /\
   (exists m, outcome (Second.handleToolCall (VStr name) args) =
              inl (TypeError m))) /\
  (In name ["easybusy_company_features"; "easybusy_company_languages";
            "easybusy_bookable_doctors"] ->
   First.handleToolCall (VStr name) args =
     First.handleToolCall (VStr name) (VObj []) /\
   Second.handleToolCall (VStr name) args =
     Second.handleToolCall (VStr name) (VObj [])).
Proof.
  intros N. rewrite !handleToolCall_same. split; intros I; simpl in I.
  - repeat (destruct I as [<-|I];
            [unfold First.handleToolCall, prop; simpl; rewrite N;
             repeat split; eexists; reflexivity|]).
    contradiction.
  - repeat (destruct I as [<-|I]; [split; reflexivity|]). contradiction.
Qed.

End Invariants.

Lemma reply_envelope_shape_witness :
  exists evs env,
    First.on_message (H := Samples.refusing) Samples.book_slot_42 =
      ((evs ++ [EvSend (JSON_stringify (Runtime := Samples.refusing) env)])%list,
       inr tt) /\
    replies evs = [].
Proof.
  destruct (@reply_envelope_shape Samples.refusing Samples.book_slot_42
              (Reference.parsed Samples.book_slot_42) eq_refl eq_refl)
    as (evs & env & _ & _ & E & _ & Q & _).
  exists evs, env. split; [exact E | exact Q].
Defined.

Lemma handlers_agree_witness :
  events (Second.on_message (H := Samples.failing)
            Samples.slots_without_dates) =
  events (First.on_message (H := Samples.failing)
            Samples.slots_without_dates).
Proof.
  apply (@handlers_agree Samples.failing Samples.slots_without_dates).
  intros r e E. discriminate E.
Defined.

Lemma registry_matches_dispatcher_witness :
  (exists r,
     events (First.handleToolCall (H := Samples.silent)
               (VStr "easybusy_bookable_doctors") (VObj [])) = [EvFetch r]) /\
  ~ (exists r,
       events (First.handleToolCall (H := Samples.silent)
                 (VArr [VStr "easybusy_bookable_doctors"]) (VObj [])) =
       [EvFetch r]).
Proof.
  split.
  - apply (proj2 (proj2 (@registry_matches_dispatcher Samples.silent
                           (VStr "easybusy_bookable_doctors") (VObj [])))
             "easybusy_bookable_doctors" eq_refl
             ltac:(simpl; tauto) eq_refl
             ltac:(split; [intros k I; simpl in I; contradiction
                          |discriminate])).
  - intros F.
    apply (proj1 (@registry_matches_dispatcher Samples.silent
                    (VArr [VStr "easybusy_bookable_doctors"]) (VObj []))) in F.
    destruct F as (n & E & _). discriminate E.
Defined.

Lemma dispatcher_returns_iff_2xx_witness :
  (exists v,
     outcome (First.handleToolCall (H := Samples.booked)
                (VStr "easybusy_company_languages") (VObj [])) = inr v) /\
  ~ (exists v,
       outcome (Second.handleToolCall (H := Samples.refusing)
                  (VStr "easybusy_company_languages") (VObj [])) = inr v).
Proof.
  split.
  - apply (proj1 (@dispatcher_returns_iff_2xx Samples.booked
                    (VStr "easybusy_company_languages") (VObj []))).
    eexists. eexists. split; [reflexivity|].
    split; [reflexivity | simpl; lia].
  - intros R.
    apply (proj2 (@dispatcher_returns_iff_2xx Samples.refusing
                    (VStr "easybusy_company_languages") (VObj []))) in R.
    destruct R as (r & res & _ & E & L). injection E as <-. simpl in L. lia.
Defined.

Lemma dispatcher_without_arguments_witness :
  events (First.handleToolCall (H := Samples.booked)
            (VStr "easybusy_request_slot") VNull) = [] /\
  First.handleToolCall (H := Samples.booked)
    (VStr "easybusy_company_features") VUndefined =
  First.handleToolCall (H := Samples.booked)
    (VStr "easybusy_company_features") (VObj []).
Proof.
  split.
  - exact (proj1 (proj1 (@dispatcher_without_arguments Samples.booked
                           "easybusy_request_slot" VNull eq_refl)
                    ltac:(simpl; tauto))).
  - exact (proj1 (proj2 (@dispatcher_without_arguments Samples.booked
                           "easybusy_company_features" VUndefined eq_refl)
                    ltac:(simpl; tauto))).
Defined.

(** ** The URL the client builds *)

Section Query.
Context `{Runtime}.

(** X12.  For a plain path and a query object (its keys are distinct),
    the client makes one call: to that path against the configured base,
    with the entries whose value is neither [null] nor [undefined] as
    search parameters, in the order of the object, each value as its text,
    and with GET unless a method is given.  When one of those values has no
    text, the client throws the TypeError of the conversion and makes no
    call. *)
Theorem query_keeps_present_entries (path : string) (m : option string)
  (entries : list (string * value)) (b : option value) :
  plain_path path = true ->
  NoDup (map fst entries) ->
  match present_texts entries with
  | Some texts =>
      exists r,
        First.easybusyFetch path (mkOptions m (Some entries) b) =
          ([EvFetch r], settle r) /\
        Second.easybusyFetch path (mkOptions m (Some entries) b) =
          ([EvFetch r], settle r) /\
        req_url r = mkURL EASYBUSY_BASE_URL path texts /\
        map fst texts =
          map fst (filter (fun kv => negb (nullish (snd kv))) entries) /\
        req_method r = match m with Some given => given | None => "GET" end
  | None =>
      First.easybusyFetch path (mkOptions m (Some entries) b) =
        throw (TypeError "Cannot convert object to primitive value") /\
      Second.easybusyFetch path (mkOptions m (Some entries) b) =
        throw (TypeError "Cannot convert object to primitive value")
  end.
Proof.
  intros P D. rewrite easybusyFetch_same, easybusyFetch_run.
  rewrite (request_of_plain path m (Some entries) b P D).
  destruct (present_texts entries) as [texts|] eqn:E; [|split; reflexivity].
  eexists. repeat split.
  clear D. revert texts E.
  induction entries as [|[k v] rest IH]; intros texts E; simpl in E.
  - now injection E as <-.
  - simpl. destruct (nullish v); simpl; [now apply IH|].
    destruct (ToString v); [|discriminate].
    destruct (present_texts rest) as [others|]; [|discriminate].
    injection E as <-. simpl. f_equal. now apply IH.
Qed.

End Query.

Lemma query_keeps_present_entries_witness :
  exists r,
    events (First.easybusyFetch (H := Samples.silent) "/v2/x"
              (mkOptions None
                 (Some [("a", VNum 7); ("b", VNull); ("c", VUndefined);
                        ("d", VStr EmptyString); ("e", VBool false)])
                 None)) = [EvFetch r] /\
    searchParams (req_url r) =
      [("a", "7"); ("d", EmptyString); ("e", "false")] /\
    events (First.easybusyFetch (H := Samples.silent) "/v2/x"
              (mkOptions None
                 (Some [("a", VObj [("toString", VNum 1)])]) None)) = [].
Proof.
  pose proof (@query_keeps_present_entries Samples.silent "/v2/x" None
                [("a", VNum 7); ("b", VNull); ("c", VUndefined);
                 ("d", VStr EmptyString); ("e", VBool false)] None
                eq_refl
                ltac:(simpl;
                      repeat (apply NoDup_cons;
                              [simpl; intuition discriminate|]);
                      apply NoDup_nil)) as G.
  pose proof (@query_keeps_present_entries Samples.silent "/v2/x" None
                [("a", VObj [("toString", VNum 1)])] None
                eq_refl
                ltac:(simpl;
                      repeat (apply NoDup_cons;
                              [simpl; intuition discriminate|]);
                      apply NoDup_nil)) as B.
  simpl in G, B. destruct G as (r & E & _ & U & _). destruct B as [F _].
  exists r. rewrite E, U, F. repeat split.
Defined.

(** ** The HTTP listener and the start-up *)

Section Listener.
Context `{Runtime}.

(** X13.  The listener answers every request with 200 or 404, and the
    404 is the answer without a body.  The first revision never looks at
    the method.  The two revisions give the same answer to every request
    but one kind: /mcp with a method other than GET. *)
Theorem http_listener_answers (req : IncomingMessage) (uptime : value) :
  (statusCode (First.on_request req uptime) = 200 \/
   statusCode (First.on_request req uptime) = 404) /\
  (statusCode (Second.on_request req uptime) = 200 \/
   statusCode (Second.on_request req uptime) = 404) /\
  (response_body (First.on_request req uptime) = None <->
   statusCode (First.on_request req uptime) = 404) /\
  (response_body (Second.on_request req uptime) = None <->
   statusCode (Second.on_request req uptime) = 404) /\
  (forall other,
     First.on_request (mkIncoming (url req) other) uptime =
     First.on_request req uptime) /\
  (Second.on_request req uptime = First.on_request req uptime \/
   (url req = "/mcp" /\ http_method req <> "GET")).
Proof.
  unfold First.on_request, Second.on_request. simpl.
  destruct (String.eqb (url req) "/health").
  { repeat split; auto; discriminate. }
  destruct (String.eqb_spec (url req) "/mcp") as [E|_].
  - destruct (String.eqb_spec (http_method req) "GET") as [_|NG]; simpl;
      repeat split; auto; discriminate.
  - simpl. repeat split; auto.
Qed.

End Listener.

(** X14.  The module body exits with code 1 exactly when EASYBUSY_API_KEY
    is not set or is empty.  Otherwise the server runs with that key, and
    PORT and EASYBUSY_BASE_URL take their defaults when they are not set
    or are empty, so none of the three constants is ever empty. *)
Theorem startup_needs_api_key (env : environment) :
  match load_config env with
  | Exit code _ =>
      code = 1 /\
      (env "EASYBUSY_API_KEY" = None \/
       env "EASYBUSY_API_KEY" = Some EmptyString)
  | Started c =>
      (exists key,
         env "EASYBUSY_API_KEY" = Some key /\ key <> EmptyString /\
         API_KEY c = VStr key) /\
      ToBoolean (PORT c) = true /\
      ToBoolean (BASE_URL c) = true /\
      (env "PORT" = None \/ env "PORT" = Some EmptyString ->
       PORT c = VNum 10000) /\
      (env "EASYBUSY_BASE_URL" = None \/
       env "EASYBUSY_BASE_URL" = Some EmptyString ->
       BASE_URL c = VStr "https://api-b2b.easybusy.software") /\
      (forall port, port <> EmptyString -> env "PORT" = Some port ->
                    PORT c = VStr port) /\
      (forall url, url <> EmptyString -> env "EASYBUSY_BASE_URL" = Some url ->
                   BASE_URL c = VStr url)
  end.
Proof.
  unfold load_config, env_value.
  destruct (env "EASYBUSY_API_KEY") as [key|] eqn:K; simpl.
  2:{ split; auto. }
  destruct (String.eqb_spec key EmptyString) as [->|NK]; simpl.
  { split; auto. }
  split; [exists key; repeat split; auto|].
  split; [apply or_else_truthy_default; reflexivity|].
  split; [apply or_else_truthy_default; reflexivity|].
  repeat split.
  - intros [->| ->]; reflexivity.
  - intros [->| ->]; reflexivity.
  - intros port NP ->. now apply or_else_message.
  - intros url NU ->. now apply or_else_message.
Qed.

Lemma http_listener_answers_witness :
  statusCode (Second.on_request (H := Samples.silent)
                (mkIncoming "/mcp" "POST") (VNum 3)) = 404 /\
  First.on_request (H := Samples.silent) (mkIncoming "/mcp" "POST") (VNum 3) =
  First.on_request (H := Samples.silent) (mkIncoming "/mcp" "GET") (VNum 3).
Proof.
  pose proof (@http_listener_answers Samples.silent
                (mkIncoming "/mcp" "GET") (VNum 3)) as G.
  pose proof (@http_listener_answers Samples.silent
                (mkIncoming "/mcp" "POST") (VNum 3)) as P.
  split.
  - exact (proj1 (proj1 (proj2 (proj2 (proj2 P)))) eq_refl).
  - exact (proj1 (proj2 (proj2 (proj2 (proj2 G)))) "POST").
Defined.

Lemma startup_needs_api_key_witness :
  exists c,
    load_config Samples.key_only = Started c /\
    PORT c = VNum 10000 /\
    BASE_URL c = VStr "https://api-b2b.easybusy.software".
Proof.
  pose proof (startup_needs_api_key Samples.key_only) as T.
  destruct (load_config Samples.key_only) as [code err|c].
  - destruct T as [_ [E|E]]; discriminate E.
  - destruct T as (_ & _ & _ & Port & Base & _).
    exists c. split; [reflexivity|].
    split; [apply Port | apply Base]; left; reflexivity.
Defined.

(** ** From the first revision to the second *)

(** X15.  The second revision rewrote the null test of the query loop
    and awaits the client before returning; neither changes anything: its
    client and its dispatcher do, on every input, what those of the first
    revision do. *)
Theorem client_and_dispatcher_unchanged `{Runtime} :
  (forall path opts,
     Second.easybusyFetch path opts = First.easybusyFetch path opts) /\
  (forall name args,
     Second.handleToolCall name args = First.handleToolCall name args).
Proof.
  split; [exact easybusyFetch_same | exact handleToolCall_same].
Qed.
